(** * Algo_Trading_System: the backtest engine and the latest-signal check

    A shallow embedding of [data_pipeline/backtest.py],
    [data_pipeline/signal_logic.py] and [data_pipeline/indicators.py].

    Modelling conventions.
    - A Python/numpy float is a value of [float]: an exact rational, one of
      the two infinities, or NaN.  Finite arithmetic on prices is exact
      (binary64 rounding, overflow and the sign of zero are not modelled);
      the special values follow IEEE 754 as numpy applies it to scalars (a
      division by zero yields an infinity or NaN, it does not raise).
    - The summary statistics are formatted to two decimals, where rounding
      shows: the win ratio is computed with binary64 rounding ([round64]),
      and the mean of pandas, whose summation order varies with the build,
      is a parameter.
    - A pandas [DataFrame] is its list of column names and its list of rows;
      a row carries its index label (a timestamp) and one value per column.
    - Python exceptions are the [Raise] results of the [Result] type.
    - Frames are mutable objects: [calculate_indicators] and [run_backtest]
      run in a state monad over a heap of frames. *)

From Stdlib Require Import QArith Qround Qabs.
From Stdlib Require Import Lqa.
From stdpp Require Import gmap strings list pretty.

Local Close Scope Q_scope.
Local Open Scope Z_scope.

(** ** Floats *)

Inductive float : Type :=
| Fin (q : Q)
| PInf
| NInf
| NaN.

Definition is_nan (x : float) : bool :=
  match x with NaN => true | _ => false end.

(** Ordered comparison; [None] when an operand is NaN (unordered). *)
Definition fcompare (x y : float) : option comparison :=
  match x, y with
  | NaN, _ | _, NaN => None
  | Fin a, Fin b => Some (a ?= b)%Q
  | PInf, PInf | NInf, NInf => Some Eq
  | NInf, _ | _, PInf => Some Lt
  | PInf, _ | _, NInf => Some Gt
  end.

(** Python's [x < y], [x <= y], [x > y], [x == y] on floats. *)
Definition fltb (x y : float) : bool :=
  match fcompare x y with Some Lt => true | _ => false end.
Definition fleb (x y : float) : bool :=
  match fcompare x y with Some Lt | Some Eq => true | _ => false end.
Definition fgtb (x y : float) : bool :=
  match fcompare x y with Some Gt => true | _ => false end.
Definition feqb (x y : float) : bool :=
  match fcompare x y with Some Eq => true | _ => false end.

Definition fadd (x y : float) : float :=
  match x, y with
  | NaN, _ | _, NaN => NaN
  | Fin a, Fin b => Fin (a + b)%Q
  | PInf, NInf | NInf, PInf => NaN
  | PInf, _ | _, PInf => PInf
  | NInf, _ | _, NInf => NInf
  end.

Definition fsub (x y : float) : float :=
  match x, y with
  | NaN, _ | _, NaN => NaN
  | Fin a, Fin b => Fin (a - b)%Q
  | PInf, PInf | NInf, NInf => NaN
  | PInf, _ | _, NInf => PInf
  | NInf, _ | _, PInf => NInf
  end.

(** An infinity with the sign of [c] ([Eq] stands for a zero factor). *)
Definition inf_of_sign (c : comparison) : float :=
  match c with Gt => PInf | Lt => NInf | Eq => NaN end.

Definition fmul (x y : float) : float :=
  match x, y with
  | NaN, _ | _, NaN => NaN
  | Fin a, Fin b => Fin (a * b)%Q
  | PInf, Fin b | Fin b, PInf => inf_of_sign (b ?= 0)%Q
  | NInf, Fin b | Fin b, NInf => inf_of_sign (0 ?= b)%Q
  | PInf, PInf | NInf, NInf => PInf
  | PInf, NInf | NInf, PInf => NInf
  end.

Definition fdiv (x y : float) : float :=
  match x, y with
  | NaN, _ | _, NaN => NaN
  | Fin a, Fin b =>
      match (b ?= 0)%Q with
      | Eq => inf_of_sign (a ?= 0)%Q
      | _ => Fin (a / b)%Q
      end
  | Fin _, _ => Fin 0%Q
  | PInf, Fin b => match (b ?= 0)%Q with Lt => NInf | _ => PInf end
  | NInf, Fin b => match (b ?= 0)%Q with Lt => PInf | _ => NInf end
  | _, _ => NaN
  end.

Definition of_int (z : Z) : float := Fin (inject_Z z).

(** ** Exceptions and results *)

Inductive Exn : Type :=
| KeyError (key : string)
| IndexError
| AttributeError
| ReferenceError.

Inductive Result (A : Type) : Type :=
| Return (a : A)
| Raise (e : Exn).
Arguments Return {A} a.
Arguments Raise {A} e.

Global Instance result_ret : MRet Result := λ A a, Return a.
Global Instance result_bind : MBind Result := λ A B k r,
  match r with
  | Return a => k a
  | Raise e => Raise e
  end.

(** ** Frames *)

Record Timestamp : Type := { ts_year : nat; ts_month : nat; ts_day : nat }.

Record Row : Type := { row_label : Timestamp; row_values : string → float }.

Record DataFrame : Type := { df_columns : list string; df_rows : list Row }.

(** A row taken out of a frame ([data.iloc[i]]): a series indexed by the
    frame's column names. *)
Record RowSeries : Type := { rs_columns : list string; rs_row : Row }.

Definition has_column (df : DataFrame) (c : string) : bool :=
  bool_decide (c ∈ df_columns df).

(** [len(data)] *)
Definition len (df : DataFrame) : Z := Z.of_nat (length (df_rows df)).

(** [data.empty]: no rows or no columns. *)
Definition empty (df : DataFrame) : bool :=
  (len df =? 0) || (Z.of_nat (length (df_columns df)) =? 0).

(** Python positional indexing on a sequence of length [n]: negative
    positions count from the end, anything else out of range is an error. *)
Definition py_index (n : Z) (i : Z) : option nat :=
  if (0 <=? i) && (i <? n) then Some (Z.to_nat i)
  else if (- n <=? i) && (i <? 0) then Some (Z.to_nat (n + i))
  else None.

Definition nth_row (df : DataFrame) (i : Z) : Result Row :=
  match py_index (len df) i with
  | Some k =>
      match df_rows df !! k with
      | Some r => Return r
      | None => Raise IndexError
      end
  | None => Raise IndexError
  end.

(** [data.iloc[i]] *)
Definition iloc (df : DataFrame) (i : Z) : Result RowSeries :=
  r ← nth_row df i ;
  Return {| rs_columns := df_columns df; rs_row := r |}.

(** [row[c]] *)
Definition getitem (row : RowSeries) (c : string) : Result float :=
  if bool_decide (c ∈ rs_columns row) then Return (row_values (rs_row row) c)
  else Raise (KeyError c).

(** [data[c].iloc[i]] *)
Definition column_iloc (df : DataFrame) (c : string) (i : Z) : Result float :=
  if has_column df c then
    r ← nth_row df i ; Return (row_values r c)
  else Raise (KeyError c).

(** [data.index[i]] *)
Definition index_at (df : DataFrame) (i : Z) : Result Timestamp :=
  r ← nth_row df i ; Return (row_label r).

(** [data.dropna()]: a new frame without the rows that hold a NaN in any
    column. *)
Definition row_complete (cols : list string) (r : Row) : bool :=
  forallb (λ c, negb (is_nan (row_values r c))) cols.

Definition dropna (df : DataFrame) : DataFrame :=
  {| df_columns := df_columns df;
     df_rows := List.filter (row_complete (df_columns df)) (df_rows df) |}.

(** [range(lo, hi)] *)
Definition range (lo hi : Z) : list Z :=
  map (λ k, lo + Z.of_nat k) (seq 0 (Z.to_nat (hi - lo))).

(** ** Formatting *)

Definition pad2 (n : nat) : string :=
  if (n <? 10)%nat then "0" +:+ pretty n else pretty n.

Definition pad4 (n : nat) : string :=
  if (n <? 10)%nat then "000" +:+ pretty n
  else if (n <? 100)%nat then "00" +:+ pretty n
  else if (n <? 1000)%nat then "0" +:+ pretty n
  else pretty n.

(** [ts.strftime('%Y-%m-%d')] *)
Definition strftime (ts : Timestamp) : string :=
  pad4 (ts_year ts) +:+ "-" +:+ pad2 (ts_month ts) +:+ "-" +:+ pad2 (ts_day ts).

(** Nearest integer, ties to even. *)
Definition round_half_even (q : Q) : Z :=
  let f := Qfloor q in
  match (q - inject_Z f ?= 1 # 2)%Q with
  | Lt => f
  | Gt => f + 1
  | Eq => if Z.even f then f else f + 1
  end.

(** [f"{x:.2f}"] *)
Definition format_2f (x : float) : string :=
  match x with
  | NaN => "nan"
  | PInf => "inf"
  | NInf => "-inf"
  | Fin q =>
      let k := round_half_even (Qabs q * 100)%Q in
      (match (q ?= 0)%Q with Lt => "-" | _ => "" end)
        +:+ pretty (k / 100) +:+ "." +:+ pad2 (Z.to_nat (k mod 100))
  end.

(** ** Binary64 rounding *)

(** [2 ^ e] for an integer [e] of either sign. *)
Definition pow2 (e : Z) : Q :=
  if 0 <=? e then inject_Z (2 ^ e) else 1 # Z.to_pos (2 ^ (- e)).

(** The binary exponent of a rational that is not zero: the [e] with
    [2 ^ e <= |q| < 2 ^ (e + 1)]. *)
Definition ilog2 (q : Q) : Z :=
  let e := Z.log2 (Z.abs (Qnum q)) - Z.log2 (Z.pos (Qden q)) in
  if Qle_bool (pow2 e) (Qabs q) then e else e - 1.

(** The binary64 number nearest to [q], ties to even: 53 significant bits,
    exponents from -1022 (below that the spacing stays at [2 ^ -1074]), and
    an infinity from [2 ^ 1024] on. *)
Definition round64 (q : Q) : float :=
  match (q ?= 0)%Q with
  | Eq => Fin 0%Q
  | c =>
      let u := pow2 (Z.max (ilog2 q) (-1022) - 52) in
      let r := (inject_Z (round_half_even (q / u)) * u)%Q in
      if Qle_bool (pow2 1024) (Qabs r)
      then match c with Gt => PInf | _ => NInf end
      else Fin r
  end.

(** Binary64 division and multiplication: the exact result, rounded. *)
Definition fdiv64 (x y : float) : float :=
  match fdiv x y with Fin q => round64 q | special => special end.

Definition fmul64 (x y : float) : float :=
  match fmul x y with Fin q => round64 q | special => special end.

Definition fadd64 (x y : float) : float :=
  match fadd x y with Fin q => round64 q | special => special end.

(** ** The backtest ([backtest.py]) *)

(** One entry of the trade log (the dict appended to [trades]). *)
Record Trade : Type := {
  stock : string;
  buy_date : string;
  buy_price : float;
  sell_date : string;
  sell_price : float;
  return_pct : float;
  status : string
}.

(** The values a summary field holds. *)
Inductive PyVal : Type :=
| PyInt (z : Z)
| PyFloat (x : float)
| PyStr (s : string).

Record Summary : Type := {
  total_trades : Z;
  win_ratio : PyVal;
  avg_return : PyVal;
  trade_log : list Trade
}.

(** The signal conditions of the loop body at position [i]:
    [rsi_signal and crossover_signal]. The right operand of the [and] in
    [crossover_signal] is only evaluated when the left one is true. *)
Definition signal_conditions (data : DataFrame) (i : Z) : Result bool :=
  yesterday ← iloc data (i - 1);
  today ← iloc data i;
  rsi ← getitem today "RSI";
  let rsi_signal := fltb rsi (of_int 30) in
  sma_20 ← getitem today "SMA_20";
  sma_50 ← getitem today "SMA_50";
  crossover_signal ←
    (if fgtb sma_20 sma_50 then
       y_20 ← getitem yesterday "SMA_20";
       y_50 ← getitem yesterday "SMA_50";
       Return (fleb y_20 y_50)
     else Return false);
  Return (rsi_signal && crossover_signal).

(** [((sell_price - buy_price) / buy_price) * 100] *)
Definition pct_return (buy sell : float) : float :=
  fmul (fdiv (fsub sell buy) buy) (of_int 100).

(** The trade logged for a signal at position [i]. *)
Definition log_trade (data : DataFrame) (ticker : string) (i : Z) : Result Trade :=
  buy_d ← index_at data (i + 1);
  buy_p ← column_iloc data "Open" (i + 1);
  sell_d ← index_at data (i + 6);
  sell_p ← column_iloc data "Open" (i + 6);
  let ret := pct_return buy_p sell_p in
  Return {| stock := ticker;
            buy_date := strftime buy_d;
            buy_price := buy_p;
            sell_date := strftime sell_d;
            sell_price := sell_p;
            return_pct := ret;
            status := if fgtb ret (of_int 0) then "Win" else "Loss" |}.

(** The [for] loop over the positions [idxs], appending to [trades]. *)
Fixpoint scan (data : DataFrame) (ticker : string) (idxs : list Z)
    (trades : list Trade) : Result (list Trade) :=
  match idxs with
  | [] => Return trades
  | i :: rest =>
      signal ← signal_conditions data i;
      if signal : bool then
        t ← log_trade data ticker i;
        scan data ticker rest (trades ++ [t])
      else scan data ticker rest trades
  end.

(** Step 2: [for i in range(1, len(data) - 6)]. *)
Definition find_trades (data : DataFrame) (ticker : string) : Result (list Trade) :=
  scan data ticker (range 1 (len data - 6)) [].

Definition is_win (t : Trade) : bool := String.eqb (status t) "Win".

Section Summary.

(** [Series.mean()] of pandas: the binary64 mean of the entries that are
    not NaN. The order in which it adds them up depends on the pandas and
    numpy build, so the function is a parameter. *)
Variable series_mean : list float → float.

(** Step 3 together with the no-trade branch before it. *)
Definition analyze_results (trades : list Trade) : Summary :=
  match trades with
  | [] => {| total_trades := 0; win_ratio := PyInt 0; avg_return := PyInt 0;
             trade_log := [] |}
  | _ =>
      let total := Z.of_nat (length trades) in
      let wins := Z.of_nat (length (List.filter is_win trades)) in
      let ratio :=
        if 0 <? total then fmul64 (fdiv64 (of_int wins) (of_int total)) (of_int 100)
        else of_int 0 in
      let avg := series_mean (map return_pct trades) in
      {| total_trades := total;
         win_ratio := PyStr (format_2f ratio +:+ "%");
         avg_return := PyStr (format_2f avg +:+ "%");
         trade_log := trades |}
  end.

(** The part of [run_backtest] after the cleaning, on the cleaned frame. *)
Definition backtest_cleaned (data : DataFrame) (ticker : string)
    : Result (option Summary) :=
  if len data <? 7 then Return None
  else
    trades ← find_trades data ticker;
    Return (Some (analyze_results trades)).

End Summary.

(** ** The latest-signal check ([signal_logic.py]) *)

Definition check_buy_signal (data : option DataFrame)
    : Result (bool * option float * option float * option float) :=
  match data with
  | None => Return (false, None, None, None)
  | Some data =>
      if negb (forallb (has_column data) ["RSI"; "SMA_20"; "SMA_50"]) then
        Return (false, None, None, None)
      else
        let data := dropna data in
        if len data <? 2 then Return (false, None, None, None)
        else
          latest_data ← iloc data (-1);
          previous_data ← iloc data (-2);
          latest_rsi ← getitem latest_data "RSI";
          latest_sma_20 ← getitem latest_data "SMA_20";
          latest_sma_50 ← getitem latest_data "SMA_50";
          let rsi_condition := fltb latest_rsi (of_int 30) in
          crossover_condition ←
            (if fgtb latest_sma_20 latest_sma_50 then
               p_20 ← getitem previous_data "SMA_20";
               p_50 ← getitem previous_data "SMA_50";
               Return (fleb p_20 p_50)
             else Return false);
          Return (rsi_condition && crossover_condition,
                  Some latest_rsi, Some latest_sma_20, Some latest_sma_50)
  end.

(** ** Frames as heap objects *)

Abbreviation loc := positive.
Abbreviation Heap := (gmap positive DataFrame).

(** A computation on the heap; the heap survives an exception. *)
Definition M (A : Type) : Type := Heap → Result A * Heap.

Global Instance M_ret : MRet M := λ A a h, (Return a, h).
Global Instance M_bind : MBind M := λ A B k m h,
  match m h with
  | (Return a, h') => k a h'
  | (Raise e, h') => (Raise e, h')
  end.

Definition raise {A} (e : Exn) : M A := λ h, (Raise e, h).
Definition lift {A} (r : Result A) : M A := λ h, (r, h).

Definition deref (r : loc) : M DataFrame := λ h,
  match h !! r with
  | Some df => (Return df, h)
  | None => (Raise ReferenceError, h)
  end.

Definition alloc (df : DataFrame) : M loc := λ h,
  let r := fresh (dom h) in (Return r, <[r := df]> h).

Definition store (r : loc) (df : DataFrame) : M unit := λ h,
  (Return tt, <[r := df]> h).

(** [data[c]] as a list of values. *)
Definition column (df : DataFrame) (c : string) : list float :=
  map (λ r, row_values r c) (df_rows df).

(** The frame after [data[c] = vals]: the column is replaced, or appended
    when new; a position [vals] does not cover is filled with NaN. *)
Definition set_column (df : DataFrame) (c : string) (vals : list float) : DataFrame :=
  {| df_columns := if has_column df c then df_columns df else df_columns df ++ [c];
     df_rows :=
       imap (λ k r, {| row_label := row_label r;
                       row_values := λ c', if String.eqb c' c
                                           then default NaN (vals !! k)
                                           else row_values r c' |})
            (df_rows df) |}.

(** [data[c] = vals] on the object at [r]. *)
Definition setitem (r : loc) (c : string) (vals : list float) : M unit :=
  df ← deref r; store r (set_column df c vals).

(** [data.copy()] and [data.dropna()] build new objects. *)
Definition copy (r : loc) : M loc := df ← deref r; alloc df.
Definition dropna_obj (r : loc) : M loc := df ← deref r; alloc (dropna df).

Section Indicators.

(** The two library computations [calculate_indicators] calls:
    [ta.momentum.rsi(close, window)] and
    [Series.rolling(window).mean()]. *)
Variable rsi : list float → nat → list float.
Variable rolling_mean : nat → list float → list float.
Variable series_mean : list float → float.

(** [indicators.py] *)
Definition calculate_indicators (data : option loc) : M (option loc) :=
  match data with
  | None => mret None
  | Some r =>
      df ← deref r;
      if negb (has_column df "Close") then mret None
      else
        close ← (df ← deref r; mret (column df "Close"));
        _ ← setitem r "RSI" (rsi close 14);
        close ← (df ← deref r; mret (column df "Close"));
        _ ← setitem r "SMA_20" (rolling_mean 20 close);
        close ← (df ← deref r; mret (column df "Close"));
        _ ← setitem r "SMA_50" (rolling_mean 50 close);
        mret (Some r)
  end.

Definition run_backtest (stock_data : option loc) (ticker : string)
    : M (option Summary) :=
  match stock_data with
  | None => mret None
  | Some r =>
      df ← deref r;
      if empty df then mret None
      else
        c ← copy r;
        data ← calculate_indicators (Some c);
        match data with
        | None => raise AttributeError
        | Some d =>
            data ← dropna_obj d;
            df ← deref data;
            lift (backtest_cleaned series_mean df ticker)
        end
  end.

(** The frame [calculate_indicators] leaves behind. *)
Definition with_indicators (df : DataFrame) : DataFrame :=
  let df1 := set_column df "RSI" (rsi (column df "Close") 14) in
  let df2 := set_column df1 "SMA_20" (rolling_mean 20 (column df1 "Close")) in
  set_column df2 "SMA_50" (rolling_mean 50 (column df2 "Close")).

(** The indicator-cleaned frame of a price frame, when there is one. *)
Definition cleaned (df : DataFrame) : option DataFrame :=
  if has_column df "Close" then Some (dropna (with_indicators df)) else None.

End Indicators.

(** ** Fetching ([fetch_data.py]) and the two modes of [main.py]

    Console output is not modelled. What a mode hands to the spreadsheet
    logger is its result. *)

(** One entry of [live_signals_to_log]. *)
Record SignalRecord : Type := {
  sig_date : string;
  sig_stock : string;
  sig_rsi : float;
  sig_sma_20 : option float;
  sig_sma_50 : option float;
  sig_signal : bool
}.

(** The [overall_summary] dict of the backtest mode. *)
Record OverallSummary : Type := {
  overall_total_trades : Z;
  overall_win_ratio : string;
  overall_avg_return : string
}.

Definition nifty_50_stocks : list string := ["RELIANCE.NS"; "INFY.NS"; "TCS.NS"].

Section Main.

Variable rsi : list float → nat → list float.
Variable rolling_mean : nat → list float → list float.
Variable series_mean : list float → float.

(** [yf.Ticker(ticker).history(period=period, auto_adjust=True)]: the frame
    downloaded, or the exception raised on the way. *)
Variable history : string → string → Result DataFrame.

(** [datetime.now().strftime('%Y-%m-%d')] at the [k]-th reading. *)
Variable clock : nat → string.

(** [fetch_data.py]: any exception is caught and gives [None]. *)
Definition fetch_stock_data (ticker period : string) : M (option loc) :=
  match history ticker period with
  | Return downloaded =>
      data ← alloc downloaded;
      df ← deref data;
      if empty df then mret None else mret (Some data)
  | Raise _ => mret None
  end.

(** The loop of the live mode over the tickers left, appending to
    [signals]. *)
Fixpoint live_loop (tickers : list string) (signals : list SignalRecord)
    : M (list SignalRecord) :=
  match tickers with
  | [] => mret signals
  | stock_ticker :: rest =>
      stock_data ← fetch_stock_data stock_ticker "6mo";
      match stock_data with
      | None => live_loop rest signals
      | Some _ =>
          data_with_indicators ← calculate_indicators rsi rolling_mean stock_data;
          match data_with_indicators with
          | None => live_loop rest signals
          | Some d =>
              df ← deref d;
              checked ← lift (check_buy_signal (Some df));
              match checked with
              | (signal, Some rsi_value, sma20, sma50) =>
                  live_loop rest
                    (signals ++ [{| sig_date := clock (length signals);
                                    sig_stock := stock_ticker;
                                    sig_rsi := rsi_value;
                                    sig_sma_20 := sma20;
                                    sig_sma_50 := sma50;
                                    sig_signal := signal |}])
              | (_, None, _, _) => live_loop rest signals
              end
          end
      end
  end.

(** Live mode: the list given to [log_trade_signals], or [None] when the
    logger is not called. *)
Definition live_mode (tickers : list string) : M (option (list SignalRecord)) :=
  live_signals_to_log ← live_loop tickers [];
  match live_signals_to_log with
  | [] => mret None
  | _ => mret (Some live_signals_to_log)
  end.

(** The loop of the backtest mode, appending trade logs to [all_trades]. *)
Fixpoint backtest_loop (tickers : list string) (all_trades : list (list Trade))
    : M (list (list Trade)) :=
  match tickers with
  | [] => mret all_trades
  | stock_ticker :: rest =>
      stock_data ← fetch_stock_data stock_ticker "2y";
      results ← run_backtest rsi rolling_mean series_mean stock_data stock_ticker;
      match results with
      | Some res =>
          match trade_log res with
          | [] => backtest_loop rest all_trades
          | _ => backtest_loop rest (all_trades ++ [trade_log res])
          end
      | None => backtest_loop rest all_trades
      end
  end.

(** The statistics over the combined log. *)
Definition overall_stats (combined_trade_log : list Trade) : OverallSummary :=
  let total := Z.of_nat (length combined_trade_log) in
  let wins := Z.of_nat (length (List.filter is_win combined_trade_log)) in
  let ratio :=
    if 0 <? total then fmul64 (fdiv64 (of_int wins) (of_int total)) (of_int 100)
    else of_int 0 in
  let avg := series_mean (map return_pct combined_trade_log) in
  {| overall_total_trades := total;
     overall_win_ratio := format_2f ratio +:+ "%";
     overall_avg_return := format_2f avg +:+ "%" |}.

(** Backtest mode: the combined log given to [log_backtest_results] and the
    summary given to [log_summary_stats], or [None] when no stock traded. *)
Definition backtest_mode (tickers : list string)
    : M (option (list Trade * OverallSummary)) :=
  all_trades ← backtest_loop tickers [];
  match all_trades with
  | [] => mret None
  | _ =>
      let combined_trade_log := concat all_trades in
      mret (Some (combined_trade_log, overall_stats combined_trade_log))
  end.

(** The mode chosen on the command line. *)
Inductive Mode : Type := Live | Backtest.

Definition main (mode : Mode)
    : M (option (list SignalRecord) + option (list Trade * OverallSummary)) :=
  match mode with
  | Live => logged ← live_mode nifty_50_stocks; mret (inl logged)
  | Backtest => logged ← backtest_mode nifty_50_stocks; mret (inr logged)
  end.

End Main.

(** ** Vocabulary of the properties *)

(** The value at position [i] (counted from the start) and column [c]. *)
Definition cell (data : DataFrame) (i : Z) (c : string) : float :=
  match df_rows data !! Z.to_nat i with
  | Some r => row_values r c
  | None => NaN
  end.

(** The label at position [i]. *)
Definition label (data : DataFrame) (i : Z) : option Timestamp :=
  row_label <$> df_rows data !! Z.to_nat i.

(** The detection predicate in the words of the specification: RSI below
    30 on bar [i], the 20-day average above the 50-day average on bar [i],
    and at or below it on bar [i - 1]. *)
Definition detect_spec (data : DataFrame) (i : Z) : bool :=
  fltb (cell data i "RSI") (of_int 30)
  && (fgtb (cell data i "SMA_20") (cell data i "SMA_50")
      && fleb (cell data (i - 1) "SMA_20") (cell data (i - 1) "SMA_50")).

Definition feature_frame (data : DataFrame) : Prop :=
  forallb (has_column data) ["RSI"; "SMA_20"; "SMA_50"] = true.

(** What the entry logged for a signal at [i] must look like. *)
Definition trade_of (data : DataFrame) (ticker : string) (i : Z) (t : Trade) : Prop :=
  stock t = ticker
  ∧ buy_price t = cell data (i + 1) "Open"
  ∧ sell_price t = cell data (i + 6) "Open"
  ∧ strftime <$> label data (i + 1) = Some (buy_date t)
  ∧ strftime <$> label data (i + 6) = Some (sell_date t).

(** A trade whose return and status follow from its two prices. *)
Definition priced (t : Trade) : Prop :=
  return_pct t = pct_return (buy_price t) (sell_price t)
  ∧ status t = if fgtb (return_pct t) (of_int 0) then "Win" else "Loss".

(** A result that is a value or a KeyError, nothing else. *)
Definition key_error_only {A} (r : Result A) : Prop :=
  match r with
  | Return _ | Raise (KeyError _) => True
  | Raise _ => False
  end.

(** A logged signal whose values are defined and bear out its flag. *)
Definition sound_signal (s : SignalRecord) : Prop :=
  is_nan (sig_rsi s) = false
  ∧ ∃ a b, sig_sma_20 s = Some a ∧ sig_sma_50 s = Some b
           ∧ is_nan a = false ∧ is_nan b = false
           ∧ (sig_signal s = true →
              fltb (sig_rsi s) (of_int 30) = true ∧ fgtb a b = true).

(** ** Concrete frames for the examples *)

Module Examples.

Definition day (d : nat) : Timestamp := {| ts_year := 2024; ts_month := 3; ts_day := d |}.

(** A row from its values in the order of [cols]; a missing value is NaN. *)
Definition mk_row (cols : list string) (d : nat) (vals : list float) : Row :=
  {| row_label := day d;
     row_values := λ c,
       default NaN (k ← list_find (String.eqb c) cols ≫= (λ p, Some (fst p)); vals !! k) |}.

Definition mk_frame (cols : list string) (rows : list (list float)) : DataFrame :=
  {| df_columns := cols;
     df_rows := imap (λ k vals, mk_row cols (S k) vals) rows |}.

Definition feature_cols : list string := ["Open"; "RSI"; "SMA_20"; "SMA_50"].

Definition q (n : Z) : float := of_int n.

(** Ten bars; bar 2 has RSI 25 and the 20-day average rising through the
    50-day average. Bar 3 opens at [o3], bar 8 at [o8]. *)
Definition ten_bars (o3 o8 : Z) : DataFrame :=
  mk_frame feature_cols
    [ [q 90; q 50; q 10; q 12];
      [q 91; q 40; q 11; q 12];
      [q 92; q 25; q 13; q 12];
      [q o3; q 45; q 14; q 12];
      [q 94; q 50; q 15; q 12];
      [q 95; q 50; q 15; q 12];
      [q 96; q 50; q 15; q 12];
      [q 97; q 50; q 15; q 12];
      [q o8; q 50; q 15; q 12];
      [q 99; q 50; q 15; q 12] ].

(** Twelve bars with two signals, at bars 2 and 4: the holding windows
    (bars 3 to 8 and bars 5 to 10) overlap. *)
Definition twelve_bars : DataFrame :=
  mk_frame feature_cols
    [ [q 90; q 50; q 10; q 12];
      [q 91; q 40; q 11; q 12];
      [q 92; q 25; q 13; q 12];
      [q 100; q 28; q 12; q 12];
      [q 94; q 27; q 14; q 12];
      [q 104; q 50; q 15; q 12];
      [q 96; q 50; q 15; q 12];
      [q 97; q 50; q 15; q 12];
      [q 110; q 50; q 15; q 12];
      [q 99; q 50; q 15; q 12];
      [q 91; q 50; q 15; q 12];
      [q 98; q 50; q 15; q 12] ].

(** Three bars: too few for a single pass of the loop. *)
Definition three_bars : DataFrame :=
  mk_frame feature_cols
    [ [q 90; q 50; q 10; q 12];
      [q 91; q 25; q 13; q 12];
      [q 92; q 45; q 14; q 12] ].

(** Seven bars without a signal. *)
Definition seven_quiet_bars : DataFrame :=
  mk_frame feature_cols
    [ [q 90; q 50; q 10; q 12];
      [q 91; q 50; q 10; q 12];
      [q 92; q 50; q 10; q 12];
      [q 93; q 50; q 10; q 12];
      [q 94; q 50; q 10; q 12];
      [q 95; q 50; q 10; q 12];
      [q 96; q 50; q 10; q 12] ].

(** A frame fresh from the indicators: the first bar has no averages yet,
    the last bar is oversold and has just crossed. *)
Definition fresh_cross : DataFrame :=
  mk_frame feature_cols
    [ [q 90; q 50; NaN; NaN];
      [q 91; q 40; q 11; q 12];
      [q 92; q 25; q 13; q 12] ].

Definition trade (buy sell : Z) : Trade :=
  let ret := pct_return (q buy) (q sell) in
  {| stock := "ACME"; buy_date := "2024-03-04"; buy_price := q buy;
     sell_date := "2024-03-09"; sell_price := q sell; return_pct := ret;
     status := if fgtb ret (of_int 0) then "Win" else "Loss" |}.

(** One win (+10%), one loss (-5%) and one flat trade. *)
Definition three_trades : list Trade := [trade 100 110; trade 100 95; trade 100 100].

(** Indicator functions to run the whole pipeline with: a flat RSI of 50
    after the warm-up, and the plain mean of the last [w] values. *)
Definition example_rsi (close : list float) (w : nat) : list float :=
  imap (λ k _, if (k <? w)%nat then NaN else q 50) close.

Definition example_rolling_mean (w : nat) (close : list float) : list float :=
  imap (λ k _, if (S k <? w)%nat then NaN
               else fdiv (fold_left fadd (take w (drop (S k - w) close)) (of_int 0))
                         (of_int (Z.of_nat w)))
       close.

(** Sixty daily bars of a slowly rising price. *)
Definition sixty_bars : DataFrame :=
  {| df_columns := ["Open"; "Close"];
     df_rows := map (λ k, {| row_label := {| ts_year := 2024; ts_month := 1 + k / 28;
                                              ts_day := 1 + k mod 28 |};
                             row_values := λ _, q (100 + Z.of_nat k) |})
                    (seq 0 60) |}.

Definition one_frame_heap : gmap positive DataFrame := {[ 1%positive := sixty_bars ]}.

(** The first seven bars of [ten_bars]: bar 2 would give a signal. *)
Definition seven_bars_with_cross : DataFrame :=
  {| df_columns := feature_cols; df_rows := take 7 (df_rows (ten_bars 100 110)) |}.

(** The bars of [ten_bars] under the indicator columns alone. *)
Definition no_open_bars : DataFrame :=
  {| df_columns := ["RSI"; "SMA_20"; "SMA_50"]; df_rows := df_rows (ten_bars 100 110) |}.

(** Two bars of a frame that has no Close column. *)
Definition no_close_bars : DataFrame := mk_frame ["Open"] [[q 90]; [q 91]].

(** Ten price bars, opening like [ten_bars 100 110]. *)
Definition price_bars : DataFrame :=
  mk_frame ["Open"; "Close"]
    [ [q 90; q 91]; [q 91; q 92]; [q 92; q 99]; [q 100; q 93]; [q 94; q 95];
      [q 95; q 96]; [q 96; q 97]; [q 97; q 109]; [q 110; q 98]; [q 99; q 99] ].

(** Indicator functions that give the indicator columns of [ten_bars]. *)
Definition scripted_rsi (_ : list float) (_ : nat) : list float :=
  map q [50; 40; 25; 45; 50; 50; 50; 50; 50; 50].

Definition scripted_rolling_mean (w : nat) (_ : list float) : list float :=
  if (w =? 20)%nat then map q [10; 11; 13; 14; 15; 15; 15; 15; 15; 15]
  else map q [12; 12; 12; 12; 12; 12; 12; 12; 12; 12].

(** A market: one ticker downloads [price_bars], one a frame without a
    Close column, and every other download fails. *)
Definition market (ticker period : string) : Result DataFrame :=
  if String.eqb ticker "RELIANCE.NS" then Return price_bars
  else if String.eqb ticker "TCS.NS" then Return no_close_bars
  else Raise (KeyError ticker).


(** A mean as pandas computes it on a short series: the entries that are
    not NaN added from left to right and divided by their number, every
    step rounded to binary64. *)
Definition plain_mean (xs : list float) : float :=
  let ys := List.filter (λ x, negb (is_nan x)) xs in
  match ys with
  | [] => NaN
  | _ => fdiv64 (fold_left fadd64 ys (of_int 0)) (of_int (Z.of_nat (length ys)))
  end.

Definition fixed_clock (_ : nat) : string := "2024-03-15".

End Examples.

(** * Properties *)

Arguments nth_row : simpl never.
Arguments iloc : simpl never.
Arguments getitem : simpl never.
Arguments column_iloc : simpl never.
Arguments index_at : simpl never.

(** ** The order on floats *)

Lemma fcompare_antisym (x y : float) (c : comparison) :
  fcompare x y = Some c → fcompare y x = Some (CompOpp c).
Proof.
  destruct x as [a| | |], y as [b| | |]; simpl; intros H; try discriminate;
    try (injection H as <-; reflexivity).
  injection H as <-. f_equal. symmetry. apply Qcompare_antisym.
Qed.

Lemma fleb_refl (x : float) : is_nan x = false → fleb x x = true.
Proof.
  destruct x as [a| | |]; intros H; try discriminate; try reflexivity.
  unfold fleb; simpl. now rewrite (proj1 (Qeq_alt a a) (Qeq_refl a)).
Qed.

Lemma feqb_fleb (x y : float) : feqb x y = true → fleb x y = true.
Proof. unfold feqb, fleb. destruct (fcompare x y) as [[]|]; congruence. Qed.

Lemma fgtb_not_fleb (x y : float) : fgtb x y = true → fleb x y = false.
Proof. unfold fgtb, fleb. destruct (fcompare x y) as [[]|]; congruence. Qed.

Lemma fleb_not_fltb (x y : float) : fleb y x = true → fltb x y = false.
Proof.
  unfold fleb, fltb. destruct (fcompare y x) as [c|] eqn:E; [|discriminate].
  rewrite (fcompare_antisym _ _ _ E). destruct c; simpl; congruence.
Qed.

(** ** Positional access *)

Lemma py_index_in_range (n i : Z) : 0 ≤ i < n → py_index n i = Some (Z.to_nat i).
Proof.
  intros H. unfold py_index.
  destruct (Z.leb_spec 0 i); [|lia]. destruct (Z.ltb_spec i n); [|lia]. reflexivity.
Qed.

Lemma py_index_from_end (n i : Z) :
  - n ≤ i < 0 → py_index n i = Some (Z.to_nat (n + i)).
Proof.
  intros H. unfold py_index.
  destruct (Z.leb_spec 0 i); [lia|]. simpl.
  destruct (Z.leb_spec (- n) i); [|lia]. destruct (Z.ltb_spec i 0); [|lia]. reflexivity.
Qed.

Lemma py_index_out_of_range (n i : Z) : 0 ≤ n → i < - n ∨ n ≤ i → py_index n i = None.
Proof.
  intros Hn H. unfold py_index.
  destruct (Z.leb_spec 0 i), (Z.ltb_spec i n), (Z.leb_spec (- n) i), (Z.ltb_spec i 0);
    simpl; try reflexivity; lia.
Qed.

Lemma nth_row_in_range (data : DataFrame) (i : Z) :
  0 ≤ i < len data →
  ∃ r, df_rows data !! Z.to_nat i = Some r ∧ nth_row data i = Return r.
Proof.
  intros H. unfold nth_row. rewrite py_index_in_range by exact H.
  destruct (df_rows data !! Z.to_nat i) as [r|] eqn:E; [eauto|].
  apply lookup_ge_None in E. unfold len in H. lia.
Qed.

Lemma nth_row_from_end (data : DataFrame) (i : Z) :
  - len data ≤ i < 0 → nth_row data i = nth_row data (len data + i).
Proof.
  intros H. unfold nth_row.
  rewrite py_index_from_end by exact H. rewrite py_index_in_range by lia. reflexivity.
Qed.

Lemma iloc_in_range (data : DataFrame) (i : Z) :
  0 ≤ i < len data →
  ∃ r, df_rows data !! Z.to_nat i = Some r ∧
       iloc data i = Return {| rs_columns := df_columns data; rs_row := r |}.
Proof.
  intros H. destruct (nth_row_in_range data i H) as (r & Hr & E).
  exists r. split; [exact Hr|]. unfold iloc. rewrite E. reflexivity.
Qed.

Lemma getitem_column (data : DataFrame) (r : Row) (c : string) :
  has_column data c = true →
  getitem {| rs_columns := df_columns data; rs_row := r |} c = Return (row_values r c).
Proof. unfold getitem, has_column. cbn [rs_columns rs_row]. intros ->. reflexivity. Qed.

Lemma column_iloc_in_range (data : DataFrame) (c : string) (i : Z) :
  has_column data c = true → 0 ≤ i < len data →
  column_iloc data c i = Return (cell data i c).
Proof.
  intros Hc H. unfold column_iloc, cell. rewrite Hc.
  destruct (nth_row_in_range data i H) as (r & -> & ->). reflexivity.
Qed.

Lemma index_at_in_range (data : DataFrame) (i : Z) :
  0 ≤ i < len data →
  ∃ ts, label data i = Some ts ∧ index_at data i = Return ts.
Proof.
  intros H. unfold index_at, label.
  destruct (nth_row_in_range data i H) as (r & -> & ->). simpl. eauto.
Qed.

(** ** The signal conditions *)

Lemma feature_frame_columns (data : DataFrame) :
  feature_frame data →
  has_column data "RSI" = true ∧ has_column data "SMA_20" = true
  ∧ has_column data "SMA_50" = true.
Proof.
  unfold feature_frame. simpl. rewrite !andb_true_iff. tauto.
Qed.

Lemma signal_conditions_detect (data : DataFrame) (i : Z) :
  feature_frame data → 1 ≤ i < len data →
  signal_conditions data i = Return (detect_spec data i).
Proof.
  intros Hf Hi. apply feature_frame_columns in Hf as (Hr & H20 & H50).
  unfold signal_conditions, detect_spec, cell.
  destruct (iloc_in_range data (i - 1)) as (y & Hy & ->); [lia|].
  destruct (iloc_in_range data i) as (t & Ht & ->); [lia|].
  rewrite Hy, Ht. simpl.
  rewrite (getitem_column data t "RSI" Hr), (getitem_column data t "SMA_20" H20),
    (getitem_column data t "SMA_50" H50). simpl.
  destruct (fgtb (row_values t "SMA_20") (row_values t "SMA_50")); simpl.
  - rewrite (getitem_column data y "SMA_20" H20), (getitem_column data y "SMA_50" H50).
    reflexivity.
  - now rewrite andb_false_r.
Qed.

(** C1. On a frame with the three feature columns and at a position [i]
    with [1 <= i < len(data)], the signal conditions evaluate to true
    exactly when RSI(i) < 30, SMA_20(i) > SMA_50(i) and
    SMA_20(i-1) <= SMA_50(i-1). In particular they hold when the prior bar
    has SMA_20 equal to SMA_50, and fail when the prior bar already has
    SMA_20 above SMA_50 or when RSI(i) >= 30. *)
Theorem signal_conditions_iff (data : DataFrame) (i : Z) :
  feature_frame data → 1 ≤ i < len data →
  let rsi := cell data i "RSI" in
  let sma20 := cell data i "SMA_20" in
  let sma50 := cell data i "SMA_50" in
  let prev20 := cell data (i - 1) "SMA_20" in
  let prev50 := cell data (i - 1) "SMA_50" in
  ∃ b : bool,
    signal_conditions data i = Return b
    ∧ (b = true ↔
         fltb rsi (of_int 30) = true ∧ fgtb sma20 sma50 = true
         ∧ fleb prev20 prev50 = true)
    ∧ (fltb rsi (of_int 30) = true → fgtb sma20 sma50 = true →
       feqb prev20 prev50 = true → b = true)
    ∧ (fgtb prev20 prev50 = true → b = false)
    ∧ (fleb (of_int 30) rsi = true → b = false).
Proof.
  intros Hf Hi rsi sma20 sma50 prev20 prev50.
  exists (detect_spec data i). split; [now apply signal_conditions_detect|].
  unfold detect_spec. fold rsi sma20 sma50 prev20 prev50.
  split; [|split; [|split]].
  - rewrite !andb_true_iff. tauto.
  - intros -> -> He. now rewrite (feqb_fleb _ _ He).
  - intros Hg. rewrite (fgtb_not_fleb _ _ Hg). now rewrite !andb_false_r.
  - intros Hr. now rewrite (fleb_not_fltb _ _ Hr).
Qed.

(** ** The scan *)

Lemma elem_of_range (lo hi i : Z) : i ∈ range lo hi ↔ lo ≤ i < hi.
Proof.
  unfold range. rewrite list_elem_of_fmap. split.
  - intros (k & -> & Hk). apply elem_of_seq in Hk. lia.
  - intros H. exists (Z.to_nat (i - lo)). split; [lia|]. apply elem_of_seq. lia.
Qed.

Lemma NoDup_range (lo hi : Z) : NoDup (range lo hi).
Proof.
  unfold range. apply NoDup_fmap_2; [|apply NoDup_seq].
  intros a b H. lia.
Qed.

Lemma log_trade_in_range (data : DataFrame) (ticker : string) (i : Z) :
  has_column data "Open" = true → 0 ≤ i + 1 → i + 6 < len data →
  ∃ t, log_trade data ticker i = Return t ∧ trade_of data ticker i t.
Proof.
  intros Ho H1 H6. unfold log_trade.
  destruct (index_at_in_range data (i + 1)) as (bd & Hbd & ->); [lia|].
  destruct (index_at_in_range data (i + 6)) as (sd & Hsd & ->); [lia|].
  rewrite !column_iloc_in_range by (assumption || lia).
  eexists. split; [reflexivity|].
  unfold trade_of. simpl. rewrite Hbd, Hsd. repeat split; reflexivity.
Qed.

Lemma scan_in_range (data : DataFrame) (ticker : string) (idxs : list Z) :
  feature_frame data → has_column data "Open" = true →
  (∀ i, i ∈ idxs → 1 ≤ i ∧ i + 6 < len data) →
  ∀ acc, ∃ ts,
    scan data ticker idxs acc = Return (acc ++ ts)
    ∧ Forall2 (trade_of data ticker) (List.filter (detect_spec data) idxs) ts.
Proof.
  intros Hf Ho. induction idxs as [|i idxs IH]; intros Hin acc.
  - exists []. simpl. rewrite app_nil_r. split; [reflexivity | constructor].
  - assert (Hi : 1 ≤ i ∧ i + 6 < len data) by (apply Hin; left).
    assert (Hin' : ∀ j, j ∈ idxs → 1 ≤ j ∧ j + 6 < len data)
      by (intros j Hj; apply Hin; now right).
    simpl. rewrite signal_conditions_detect by (assumption || lia). simpl.
    destruct (detect_spec data i) eqn:Hd.
    + destruct (log_trade_in_range data ticker i Ho) as (t & -> & Ht); [lia..|].
      simpl. destruct (IH Hin' (acc ++ [t])) as (ts & -> & Hts).
      exists (t :: ts). rewrite <- app_assoc. split; [reflexivity|].
      now constructor.
    + destruct (IH Hin' acc) as (ts & -> & Hts). eauto.
Qed.

(** A signal is never followed by a signal on the next bar: the first needs
    the 20-day average above the 50-day average on its bar, the second needs
    it at or below on that same bar. *)
Lemma detect_spec_not_consecutive (data : DataFrame) (i : Z) :
  detect_spec data i = true → detect_spec data (i + 1) = false.
Proof.
  unfold detect_spec. replace (i + 1 - 1) with i by lia.
  intros H. apply andb_true_iff in H as [_ H]. apply andb_true_iff in H as [H _].
  rewrite (fgtb_not_fleb _ _ H). now rewrite !andb_false_r.
Qed.

(** C2. On a cleaned feature frame of [n >= 7] bars the loop visits exactly
    the positions 1 .. n-7, each once, and returns one trade per visited
    position at which the signal conditions hold, in order: bought at the
    open of bar i+1 and sold at the open of bar i+6. Nothing depends on the
    earlier trades, so the number of trades is the number of such
    positions. *)
Theorem find_trades_one_per_signal (data : DataFrame) (ticker : string) :
  feature_frame data → has_column data "Open" = true → 7 ≤ len data →
  let visited := range 1 (len data - 6) in
  let hits := List.filter (detect_spec data) visited in
  (∀ i, i ∈ visited ↔ 1 ≤ i ≤ len data - 7)
  ∧ NoDup visited
  ∧ (∀ i, i ∈ visited → signal_conditions data i = Return (detect_spec data i))
  ∧ ∃ trades,
      find_trades data ticker = Return trades
      ∧ Forall2 (trade_of data ticker) hits trades
      ∧ length trades = length hits.
Proof.
  intros Hf Ho Hn visited hits. split; [|split; [|split]].
  - intros i. unfold visited. rewrite elem_of_range. lia.
  - apply NoDup_range.
  - intros i Hi. apply elem_of_range in Hi.
    apply signal_conditions_detect; [assumption | lia].
  - destruct (scan_in_range data ticker visited Hf Ho) with (acc := @nil Trade)
      as (ts & Hs & Hts).
    + intros i Hi. apply elem_of_range in Hi. lia.
    + exists ts. split; [exact Hs|]. split; [exact Hts|].
      symmetry. eapply Forall2_length, Hts.
Qed.

(** C7. With fewer than 7 bars the loop body never runs: the trade list
    is empty and nothing is raised. *)
Theorem find_trades_short (data : DataFrame) (ticker : string) :
  len data < 7 → find_trades data ticker = Return [].
Proof.
  intros H. unfold find_trades, range.
  replace (Z.to_nat (len data - 6 - 1)) with 0%nat by lia. reflexivity.
Qed.

(** ** Return and outcome of a trade *)

Lemma log_trade_priced (data : DataFrame) (ticker : string) (i : Z) (t : Trade) :
  log_trade data ticker i = Return t → priced t.
Proof.
  unfold log_trade.
  destruct (index_at data (i + 1)) as [bd|]; [simpl|discriminate].
  destruct (column_iloc data "Open" (i + 1)) as [bp|]; [simpl|discriminate].
  destruct (index_at data (i + 6)) as [sd|]; [simpl|discriminate].
  destruct (column_iloc data "Open" (i + 6)) as [sp|]; [simpl|discriminate].
  intros [= <-]. split; reflexivity.
Qed.

Lemma scan_priced (data : DataFrame) (ticker : string) (idxs : list Z) :
  ∀ acc ts, Forall priced acc → scan data ticker idxs acc = Return ts →
            Forall priced ts.
Proof.
  induction idxs as [|i idxs IH]; intros acc ts Hacc; simpl.
  - now intros [= <-].
  - destruct (signal_conditions data i) as [[]|]; simpl; [| now apply IH | discriminate].
    destruct (log_trade data ticker i) as [t|] eqn:Ht; simpl; [|discriminate].
    apply IH. apply Forall_app. split; [exact Hacc|].
    constructor; [|constructor]. eapply log_trade_priced, Ht.
Qed.



(** ** Bounds of the accesses *)

Lemma getitem_key_error_only (row : RowSeries) (c : string) :
  key_error_only (getitem row c).
Proof. unfold getitem. destruct (bool_decide _); exact I. Qed.

Lemma signal_conditions_key_error_only (data : DataFrame) (i : Z) :
  1 ≤ i < len data → key_error_only (signal_conditions data i).
Proof.
  intros Hi. unfold signal_conditions.
  destruct (iloc_in_range data (i - 1)) as (y & _ & ->); [lia|].
  destruct (iloc_in_range data i) as (t & _ & ->); [lia|]. simpl.
  repeat match goal with
  | |- context [getitem ?r ?c] =>
      let H := fresh in
      pose proof (getitem_key_error_only r c) as H;
      destruct (getitem r c) as [?|[]]; simpl in *; try exact I; try contradiction;
      clear H
  | |- context [if ?b then _ else _] => destruct b; simpl
  end; exact I.
Qed.

Lemma log_trade_key_error_only (data : DataFrame) (ticker : string) (i : Z) :
  0 ≤ i + 1 → i + 6 < len data → key_error_only (log_trade data ticker i).
Proof.
  intros H1 H6. unfold log_trade.
  destruct (index_at_in_range data (i + 1)) as (bd & _ & ->); [lia|].
  destruct (index_at_in_range data (i + 6)) as (sd & _ & ->); [lia|].
  unfold column_iloc. destruct (has_column data "Open"); [|exact I].
  destruct (nth_row_in_range data (i + 1)) as (r1 & _ & ->); [lia|].
  destruct (nth_row_in_range data (i + 6)) as (r6 & _ & ->); [lia|].
  exact I.
Qed.

Lemma scan_key_error_only (data : DataFrame) (ticker : string) (idxs : list Z) :
  (∀ i, i ∈ idxs → 1 ≤ i ∧ i + 6 < len data) →
  ∀ acc, key_error_only (scan data ticker idxs acc).
Proof.
  induction idxs as [|i idxs IH]; intros Hin acc; [exact I|].
  assert (Hi : 1 ≤ i ∧ i + 6 < len data) by (apply Hin; left).
  assert (Hin' : ∀ j, j ∈ idxs → 1 ≤ j ∧ j + 6 < len data)
    by (intros j Hj; apply Hin; now right).
  simpl.
  pose proof (signal_conditions_key_error_only data i) as Hs.
  destruct (signal_conditions data i) as [[]|[]]; simpl in *;
    try exact I; try (exfalso; apply Hs; lia); try now apply IH.
  pose proof (log_trade_key_error_only data ticker i) as Hl.
  destruct (log_trade data ticker i) as [t|[]]; simpl in *;
    try exact I; try (exfalso; apply Hl; lia). now apply IH.
Qed.

(** C9. With [n >= 7] bars, every position the loop touches for a visited
    index [i] (i-1, i, i+1 and i+6) lies in [0, n): positional access finds
    a row there, without wrapping around and without an IndexError; the last
    visited index (there is one from 8 bars on) sells on the last bar. The bound of the loop alone gives
    this: whatever the columns are, the scan never raises IndexError. *)
Theorem scan_accesses_in_bounds (data : DataFrame) (ticker : string) :
  7 ≤ len data →
  (∀ i j, i ∈ range 1 (len data - 6) → j ∈ [i - 1; i; i + 1; i + 6] →
     0 ≤ j < len data
     ∧ py_index (len data) j = Some (Z.to_nat j)
     ∧ ∃ r, df_rows data !! Z.to_nat j = Some r ∧ nth_row data j = Return r)
  ∧ (8 ≤ len data → (len data - 7) ∈ range 1 (len data - 6))
  ∧ (len data - 7) + 6 = len data - 1
  ∧ find_trades data ticker ≠ Raise IndexError.
Proof.
  intros Hn. split; [|split; [|split]].
  - intros i j Hi Hj. apply elem_of_range in Hi.
    assert (Hb : 0 ≤ j < len data).
    { repeat (apply elem_of_cons in Hj as [->|Hj]); try lia.
      now apply elem_of_nil in Hj. }
    split; [exact Hb|]. split; [now apply py_index_in_range|].
    now apply nth_row_in_range.
  - intros H8. apply elem_of_range. lia.
  - lia.
  - intros E. unfold find_trades in E.
    assert (Hin : ∀ i, i ∈ range 1 (len data - 6) → 1 ≤ i ∧ i + 6 < len data).
    { intros i Hi. apply elem_of_range in Hi. lia. }
    pose proof (scan_key_error_only data ticker _ Hin []) as H.
    rewrite E in H. exact H.
Qed.

(** ** The summary *)

Lemma round_half_even_Qeq (a b : Q) :
  (a == b)%Q → round_half_even a = round_half_even b.
Proof.
  intros H. unfold round_half_even.
  rewrite (Qfloor_comp _ _ H).
  assert (E : (a - inject_Z (Qfloor b) ?= 1 # 2)%Q = (b - inject_Z (Qfloor b) ?= 1 # 2)%Q)
    by now rewrite H.
  now rewrite E.
Qed.

Lemma format_2f_Qeq (a b : Q) : (a == b)%Q → format_2f (Fin a) = format_2f (Fin b).
Proof.
  intros H. unfold format_2f.
  assert (E : (Qabs a * 100 == Qabs b * 100)%Q) by now rewrite H.
  rewrite (round_half_even_Qeq _ _ E).
  assert (E0 : (a ?= 0)%Q = (b ?= 0)%Q) by now rewrite H.
  now rewrite E0.
Qed.

Lemma Qcompare_pos_0 (z : Z) : 0 < z → (inject_Z z ?= 0)%Q = Gt.
Proof.
  intros H. unfold Qcompare. simpl. apply Z.compare_gt_iff. lia.
Qed.

Lemma round_half_even_le (q : Q) (n : Z) :
  (q <= inject_Z n)%Q → round_half_even q ≤ n.
Proof.
  intros H. unfold round_half_even.
  pose proof (Qfloor_le q) as Hf.
  assert (Hfn : Qfloor q ≤ n).
  { rewrite <- (Qfloor_Z n). now apply Qfloor_resp_le. }
  assert (Hstep : (1 # 2 <= q - inject_Z (Qfloor q))%Q → Qfloor q + 1 ≤ n).
  { intros Hh. destruct (Z_le_gt_dec n (Qfloor q)) as [Hle|]; [|lia]. exfalso.
    rewrite Zle_Qle in Hle. lra. }
  destruct (q - inject_Z (Qfloor q) ?= 1 # 2)%Q eqn:C.
  - apply Qeq_alt in C. destruct (Z.even (Qfloor q)); [exact Hfn|].
    apply Hstep. rewrite C. apply Qle_refl.
  - exact Hfn.
  - apply Qgt_alt in C. apply Hstep. now apply Qlt_le_weak.
Qed.

Lemma round_half_even_ge (q : Q) (n : Z) :
  (inject_Z n <= q)%Q → n ≤ round_half_even q.
Proof.
  intros H. unfold round_half_even.
  assert (Hfn : n ≤ Qfloor q).
  { rewrite <- (Qfloor_Z n). now apply Qfloor_resp_le. }
  destruct (q - inject_Z (Qfloor q) ?= 1 # 2)%Q; [destruct (Z.even _)|..]; lia.
Qed.

Lemma round_half_even_near (q : Q) :
  (Qabs (inject_Z (round_half_even q) - q) <= 1 # 2)%Q.
Proof.
  unfold round_half_even.
  pose proof (Qfloor_le q) as Hf. pose proof (Qlt_floor q) as Hc.
  rewrite inject_Z_plus in Hc. change (inject_Z 1) with 1%Q in Hc.
  apply Qabs_Qle_condition.
  destruct (q - inject_Z (Qfloor q) ?= 1 # 2)%Q eqn:C.
  - apply Qeq_alt in C.
    destruct (Z.even (Qfloor q)); rewrite ?inject_Z_plus;
      change (inject_Z 1) with 1%Q; split; lra.
  - apply Qlt_alt in C. split; lra.
  - apply Qgt_alt in C. rewrite inject_Z_plus. change (inject_Z 1) with 1%Q.
    split; lra.
Qed.

Lemma scaled_rounding (q u : Q) (B n : Z) :
  (0 < u)%Q → (0 <= q)%Q → (q <= inject_Z B)%Q →
  (inject_Z B == inject_Z n * u)%Q →
  let r := (inject_Z (round_half_even (q / u)) * u)%Q in
  (0 <= r)%Q ∧ (r <= inject_Z B)%Q ∧ (Qabs (r - q) <= u * (1 # 2))%Q.
Proof.
  intros Hu H0 HB Hn r. unfold r. set (m := round_half_even (q / u)).
  assert (Hm0 : 0 ≤ m).
  { apply round_half_even_ge. apply Qle_shift_div_l; [exact Hu|].
    change (inject_Z 0) with 0%Q. lra. }
  assert (Hmn : m ≤ n).
  { apply round_half_even_le. apply Qle_shift_div_r; [exact Hu|].
    rewrite <- Hn. exact HB. }
  rewrite Zle_Qle in Hm0, Hmn. change (inject_Z 0) with 0%Q in Hm0.
  split; [|split].
  - apply Qmult_le_0_compat; [exact Hm0 | now apply Qlt_le_weak].
  - rewrite Hn. apply Qmult_le_compat_r; [exact Hmn | now apply Qlt_le_weak].
  - assert (E : (inject_Z m * u - q == (inject_Z m - q / u) * u)%Q).
    { field. intros Hz. rewrite Hz in Hu. now apply Qlt_irrefl in Hu. }
    rewrite E, Qabs_Qmult, (Qabs_pos u) by now apply Qlt_le_weak.
    rewrite (Qmult_comm u). apply Qmult_le_compat_r; [|now apply Qlt_le_weak].
    apply round_half_even_near.
Qed.

Lemma pow2_neg (e : Z) : e < 0 → (pow2 e == / inject_Z (2 ^ (- e)))%Q.
Proof.
  intros H. unfold pow2. destruct (Z.leb_spec 0 e); [lia|].
  assert (Hp : 0 < 2 ^ (- e)) by (apply Z.pow_pos_nonneg; lia).
  destruct (2 ^ (- e)) as [|p|p]; try lia. reflexivity.
Qed.

Lemma pow2_pos (e : Z) : (0 < pow2 e)%Q.
Proof.
  unfold pow2. destruct (Z.leb_spec 0 e).
  - change 0%Q with (inject_Z 0). rewrite <- Zlt_Qlt. now apply Z.pow_pos_nonneg.
  - reflexivity.
Qed.

Lemma pow2_nonneg (e : Z) : 0 ≤ e → pow2 e = inject_Z (2 ^ e).
Proof. intros H. unfold pow2. now destruct (Z.leb_spec 0 e); [|lia]. Qed.

Lemma inject_Z_pow2_pos (a : Z) : 0 ≤ a → (0 < inject_Z (2 ^ a))%Q.
Proof.
  intros H. change 0%Q with (inject_Z 0). rewrite <- Zlt_Qlt.
  now apply Z.pow_pos_nonneg.
Qed.

Lemma inject_Z_pow2_neq0 (a : Z) : 0 ≤ a → ¬ (inject_Z (2 ^ a) == 0)%Q.
Proof.
  intros H E. pose proof (inject_Z_pow2_pos a H) as Hp.
  rewrite E in Hp. now apply Qlt_irrefl in Hp.
Qed.

(** [pow2] of a difference is the quotient of the two powers. *)
Lemma pow2_sub (a b : Z) :
  0 ≤ a → 0 ≤ b → (pow2 (a - b) == inject_Z (2 ^ a) / inject_Z (2 ^ b))%Q.
Proof.
  intros Ha Hb.
  pose proof (inject_Z_pow2_pos b Hb) as Hpb.
  assert (Hnb : ¬ (inject_Z (2 ^ b) == 0)%Q) by (intros E; rewrite E in Hpb; now apply Qlt_irrefl in Hpb).
  destruct (Z_lt_le_dec (a - b) 0) as [Hlt|Hge].
  - rewrite pow2_neg by exact Hlt.
    pose proof (inject_Z_pow2_pos (- (a - b)) ltac:(lia)) as Hp.
    assert (Hn : ¬ (inject_Z (2 ^ (- (a - b))) == 0)%Q) by (intros E; rewrite E in Hp; now apply Qlt_irrefl in Hp).
    assert (E : inject_Z (2 ^ b) = (inject_Z (2 ^ (- (a - b))) * inject_Z (2 ^ a))%Q :> Q).
    { rewrite <- inject_Z_mult, <- Z.pow_add_r by lia. do 2 f_equal. lia. }
    pose proof (inject_Z_pow2_pos a Ha) as Hpa.
    rewrite E. field. split; [|exact Hn].
    intros Ez. rewrite Ez in Hpa. now apply Qlt_irrefl in Hpa.
  - rewrite pow2_nonneg by exact Hge.
    assert (E : inject_Z (2 ^ a) = (inject_Z (2 ^ (a - b)) * inject_Z (2 ^ b))%Q :> Q).
    { rewrite <- inject_Z_mult, <- Z.pow_add_r by lia. do 2 f_equal. lia. }
    rewrite E. field. exact Hnb.
Qed.

Lemma Qdiv_lt_cross (n d n' d' : Z) :
  0 < d → 0 < d' → n * d' < n' * d →
  (inject_Z n / inject_Z d < inject_Z n' / inject_Z d')%Q.
Proof.
  intros Hd Hd' H. destruct d as [|p|p]; destruct d' as [|p'|p']; try lia.
  rewrite <- !Qmake_Qdiv. unfold Qlt. simpl. exact H.
Qed.

(** [ilog2] is the binary exponent: [2 ^ e <= |q| < 2 ^ (e + 1)]. *)
Lemma ilog2_spec (q : Q) :
  ¬ (q == 0)%Q →
  (pow2 (ilog2 q) <= Qabs q)%Q ∧ (Qabs q < pow2 (ilog2 q + 1))%Q.
Proof.
  intros Hq. unfold ilog2.
  set (n := Z.abs (Qnum q)). set (d := Z.pos (Qden q)).
  assert (Hn : 0 < n).
  { unfold n. destruct q as [[|p|p] dq]; simpl; try lia. exfalso. apply Hq. reflexivity. }
  assert (Hd : 0 < d) by (unfold d; lia).
  assert (Habs : (Qabs q == inject_Z n / inject_Z d)%Q).
  { unfold n, d. destruct q as [nq dq]. unfold Qabs. simpl Qnum. simpl Qden.
    rewrite (Qmake_Qdiv (Z.abs nq) dq). reflexivity. }
  destruct (Z.log2_spec n Hn) as [Hn1 Hn2]. destruct (Z.log2_spec d Hd) as [Hd1 Hd2].
  pose proof (Z.log2_nonneg n) as Ha. pose proof (Z.log2_nonneg d) as Hb.
  set (a := Z.log2 n) in *. set (b := Z.log2 d) in *.
  assert (Hpa : 0 < 2 ^ a) by (apply Z.pow_pos_nonneg; lia).
  assert (Hpb : 0 < 2 ^ b) by (apply Z.pow_pos_nonneg; lia).
  rewrite Z.pow_succ_r in Hn2, Hd2 by lia.
  assert (Hup : (Qabs q < pow2 (a - b + 1))%Q).
  { replace (a - b + 1) with (Z.succ a - b) by lia.
    rewrite Habs, pow2_sub by lia. rewrite Z.pow_succ_r by lia.
    apply Qdiv_lt_cross; [lia | lia | nia]. }
  assert (Hlow : (pow2 (a - b - 1) < Qabs q)%Q).
  { replace (a - b - 1) with (a - Z.succ b) by lia.
    rewrite Habs, pow2_sub by lia. rewrite Z.pow_succ_r by lia.
    apply Qdiv_lt_cross; [lia | lia | nia]. }
  destruct (Qle_bool (pow2 (a - b)) (Qabs q)) eqn:E.
  - apply Qle_bool_iff in E. split; [exact E | exact Hup].
  - split; [now apply Qlt_le_weak|].
    replace (a - b - 1 + 1) with (a - b) by lia.
    apply Qnot_le_lt. intros Hle. apply Qle_bool_iff in Hle. congruence.
Qed.

(** A finite result of [round64] is a multiple of the spacing [u] at the
    exponent of [q] and lies within half that spacing of [q]; for an
    exponent in the normal range the spacing is at most [|q| * 2 ^ -52]. *)
Lemma round64_nearest (q r : Q) :
  ¬ (q == 0)%Q → round64 q = Fin r →
  let u := pow2 (Z.max (ilog2 q) (-1022) - 52) in
  (∃ m : Z, r = (inject_Z m * u)%Q)
  ∧ (Qabs (r - q) <= u * (1 # 2))%Q
  ∧ (-1022 ≤ ilog2 q → (u * pow2 52 <= Qabs q)%Q).
Proof.
  intros Hq Hr u. unfold round64 in Hr. fold u in Hr.
  assert (Hu : (0 < u)%Q) by apply pow2_pos.
  assert (Hun : ¬ (u == 0)%Q) by (intros E; rewrite E in Hu; now apply Qlt_irrefl in Hu).
  assert (E : r = (inject_Z (round_half_even (q / u)) * u)%Q).
  { destruct (q ?= 0)%Q eqn:C.
    - apply Qeq_alt in C. contradiction.
    - destruct (Qle_bool _ _); [discriminate | now injection Hr as <-].
    - destruct (Qle_bool _ _); [discriminate | now injection Hr as <-]. }
  split; [eauto|]. split.
  - rewrite E.
    assert (E' : (inject_Z (round_half_even (q / u)) * u - q
                  == (inject_Z (round_half_even (q / u)) - q / u) * u)%Q) by (field; exact Hun).
    rewrite E', Qabs_Qmult, (Qabs_pos u) by now apply Qlt_le_weak.
    rewrite (Qmult_comm u). apply Qmult_le_compat_r; [|now apply Qlt_le_weak].
    apply round_half_even_near.
  - intros Hn. unfold u. rewrite Z.max_l by lia.
    destruct (ilog2_spec q Hq) as [Hlo _].
    assert (Ep : (pow2 (ilog2 q - 52) * pow2 52 == pow2 (ilog2 q))%Q).
    { set (e := ilog2 q) in *.
      replace (e - 52) with ((e + 1022) - 1074) by lia.
      replace e with ((e + 1022) - 1022) at 2 by lia.
      rewrite !pow2_sub by lia.
      change (pow2 52) with (inject_Z (2 ^ 52)).
      assert (E1074 : inject_Z (2 ^ 1074) = (inject_Z (2 ^ 1022) * inject_Z (2 ^ 52))%Q :> Q).
      { rewrite <- inject_Z_mult, <- Z.pow_add_r by lia. reflexivity. }
      rewrite E1074. field. repeat split; apply inject_Z_pow2_neq0; lia. }
    rewrite Ep. exact Hlo.
Qed.

(** 0.1 and 0.1 + 0.2 as binary64 has them. *)
Example round64_tenth :
  feqb (round64 (1 # 10)) (Fin (3602879701896397 # 2 ^ 55)) = true.
Proof. vm_compute. reflexivity. Qed.

Example fadd64_tenth_fifth :
  feqb (fadd64 (round64 (1 # 10)) (round64 (2 # 10)))
       (Fin (5404319552844596 # 2 ^ 54)) = true
  ∧ feqb (round64 (3 # 10)) (Fin (5404319552844595 # 2 ^ 54)) = true.
Proof. vm_compute. split; reflexivity. Qed.

Lemma ilog2_le (q : Q) (k : Z) :
  (0 < q)%Q → (q <= inject_Z (2 ^ k))%Q → 0 ≤ k → ilog2 q ≤ k.
Proof.
  intros Hq Hk Hk0. unfold ilog2.
  assert (Hn : 0 < Qnum q) by (unfold Qlt in Hq; simpl in Hq; lia).
  assert (Hle : Qnum q ≤ Z.pos (Qden q) * 2 ^ k).
  { unfold Qle in Hk. simpl in Hk. lia. }
  assert (Hl : Z.log2 (Z.abs (Qnum q)) ≤ k + Z.log2 (Z.pos (Qden q))).
  { rewrite Z.abs_eq by lia. rewrite <- Z.log2_mul_pow2 by lia.
    now apply Z.log2_le_mono. }
  destruct (Qle_bool _ _); lia.
Qed.

(** Rounding a rational between 0 and [B <= 2 ^ k] to binary64 stays in that
    range and moves it by at most half a unit in the last place. *)
Lemma round64_range (q : Q) (B k : Z) :
  (0 <= q)%Q → (q <= inject_Z B)%Q → 0 < B ≤ 2 ^ k → 0 ≤ k < 52 →
  ∃ r, round64 q = Fin r ∧ (0 <= r)%Q ∧ (r <= inject_Z B)%Q
       ∧ (Qabs (r - q) <= pow2 (k - 53))%Q.
Proof.
  intros H0 HB HBk Hk. unfold round64.
  destruct (q ?= 0)%Q eqn:C.
  - apply Qeq_alt in C. exists 0%Q. split; [reflexivity|].
    split; [apply Qle_refl|]. split.
    + change 0%Q with (inject_Z 0). rewrite <- Zle_Qle. lia.
    + assert (E : (0 - q == 0)%Q) by (rewrite C; ring).
      rewrite E. apply Qlt_le_weak, pow2_pos.
  - apply Qlt_alt in C. lra.
  - apply Qgt_alt in C.
    assert (Hi : ilog2 q ≤ k).
    { apply ilog2_le; [exact C| |lia].
      apply Qle_trans with (inject_Z B); [exact HB|]. rewrite <- Zle_Qle. lia. }
    set (j := Z.max (ilog2 q) (-1022) - 52).
    assert (Hj : j ≤ k - 52) by (unfold j; lia).
    assert (HP : 0 < 2 ^ (- j)) by (apply Z.pow_pos_nonneg; lia).
    assert (Hu : (pow2 j == / inject_Z (2 ^ (- j)))%Q) by (apply pow2_neg; lia).
    assert (HPq : (0 < inject_Z (2 ^ (- j)))%Q)
      by (change 0%Q with (inject_Z 0); now rewrite <- Zlt_Qlt).
    destruct (scaled_rounding q (pow2 j) B (B * 2 ^ (- j)) (pow2_pos j) H0 HB)
      as (Hr0 & HrB & Hacc).
    { rewrite Hu, inject_Z_mult. field. intros Hz. rewrite Hz in HPq.
      now apply Qlt_irrefl in HPq. }
    set (r := (inject_Z (round_half_even (q / pow2 j)) * pow2 j)%Q) in *.
    assert (Hover : Qle_bool (pow2 1024) (Qabs r) = false).
    { destruct (Qle_bool (pow2 1024) (Qabs r)) eqn:E; [|reflexivity]. exfalso.
      apply Qle_bool_iff in E. rewrite (Qabs_pos r Hr0) in E.
      change (pow2 1024) with (inject_Z (2 ^ 1024)) in E.
      assert (Hc : (inject_Z (2 ^ 1024) <= inject_Z B)%Q) by now apply Qle_trans with r.
      rewrite <- Zle_Qle in Hc.
      assert (2 ^ k < 2 ^ 1024) by (apply Z.pow_lt_mono_r; lia). lia. }
    rewrite Hover. exists r. split; [reflexivity|]. split; [exact Hr0|].
    split; [exact HrB|].
    apply Qle_trans with (pow2 j * (1 # 2))%Q; [exact Hacc|].
    rewrite Hu, (pow2_neg (k - 53)) by lia.
    replace (- (k - 53)) with ((53 - k)) by lia.
    assert (Hpow : 2 ^ (53 - k) ≤ 2 * 2 ^ (- j)).
    { rewrite <- Z.pow_succ_r by lia. apply Z.pow_le_mono_r; lia. }
    assert (HQ : (0 < inject_Z (2 ^ (53 - k)))%Q).
    { change 0%Q with (inject_Z 0). rewrite <- Zlt_Qlt. apply Z.pow_pos_nonneg; lia. }
    rewrite Zle_Qle, inject_Z_mult in Hpow. change (inject_Z 2) with 2%Q in Hpow.
    set (a := inject_Z (2 ^ (- j))) in *. set (b := inject_Z (2 ^ (53 - k))) in *.
    apply Qle_shift_inv_l; [exact HQ|].
    assert (E : (/ a * (1 # 2) * b == b / (2 * a))%Q).
    { field. intros Hz. rewrite Hz in HPq. now apply Qlt_irrefl in HPq. }
    rewrite E. apply Qle_shift_div_r; [lra|]. rewrite Qmult_1_l. exact Hpow.
Qed.

(** The binary64 value of [(W / N) * 100] for [0 <= W <= N]. *)
Lemma win_ratio_value (W N : Z) :
  0 ≤ W ≤ N → 0 < N →
  ∃ x, fmul64 (fdiv64 (of_int W) (of_int N)) (of_int 100) = Fin x
       ∧ (0 <= x)%Q ∧ (x <= 100)%Q
       ∧ (Qabs (x - 100 * inject_Z W / inject_Z N) <= 1 # 2 ^ 45)%Q.
Proof.
  intros HW HN.
  assert (HNq : (0 < inject_Z N)%Q)
    by (change 0%Q with (inject_Z 0); now rewrite <- Zlt_Qlt).
  set (t := (inject_Z W / inject_Z N)%Q).
  assert (Ht0 : (0 <= t)%Q).
  { apply Qle_shift_div_l; [exact HNq|]. rewrite Qmult_0_l.
    change 0%Q with (inject_Z 0). rewrite <- Zle_Qle. lia. }
  assert (Ht1 : (t <= inject_Z 1)%Q).
  { apply Qle_shift_div_r; [exact HNq|]. change (inject_Z 1) with 1%Q.
    rewrite Qmult_1_l, <- Zle_Qle. lia. }
  destruct (round64_range t 1 0 Ht0 Ht1) as (r1 & E1 & H10 & H11 & Ha1); [simpl; lia..|].
  assert (Hq0 : (0 <= r1 * inject_Z 100)%Q)
    by (apply Qmult_le_0_compat; [exact H10 | discriminate]).
  assert (Hq1 : (r1 * inject_Z 100 <= inject_Z 100)%Q).
  { change (inject_Z 1) with 1%Q in H11. change (inject_Z 100) with 100%Q. lra. }
  destruct (round64_range (r1 * inject_Z 100) 100 7 Hq0 Hq1)
    as (r2 & E2 & H20 & H21 & Ha2); [simpl; lia..|].
  exists r2. split.
  { unfold fdiv64, fmul64, of_int, fdiv. rewrite Qcompare_pos_0 by exact HN.
    fold t. rewrite E1. cbn [fmul]. exact E2. }
  split; [exact H20|]. split; [exact H21|].
  assert (Et : (100 * inject_Z W / inject_Z N == 100 * t)%Q)
    by (unfold t, Qdiv; ring).
  rewrite Et.
  change (pow2 (0 - 53)) with (1 # 9007199254740992)%Q in Ha1.
  change (pow2 (7 - 53)) with (1 # 70368744177664)%Q in Ha2.
  change (1 # 2 ^ 45)%Q with (1 # 35184372088832)%Q.
  apply Qabs_Qle_condition in Ha1 as [Ha1 Ha1'].
  apply Qabs_Qle_condition in Ha2 as [Ha2 Ha2'].
  change (inject_Z 100) with 100%Q in *.
  apply Qabs_Qle_condition. split; lra.
Qed.


(** C5. With no trade the summary is the zero summary: count 0, win ratio
    0, average return 0 and an empty trade log. A run whose scan finds no
    trade returns this summary. *)
Theorem analyze_results_no_trades (series_mean : list float → float) :
  analyze_results series_mean []
    = {| total_trades := 0; win_ratio := PyInt 0; avg_return := PyInt 0;
         trade_log := [] |}
  ∧ ∀ data ticker,
      7 ≤ len data → find_trades data ticker = Return [] →
      backtest_cleaned series_mean data ticker
        = Return (Some {| total_trades := 0; win_ratio := PyInt 0;
                          avg_return := PyInt 0; trade_log := [] |}).
Proof.
  split; [reflexivity|].
  intros data ticker Hn Hs. unfold backtest_cleaned.
  destruct (Z.ltb_spec (len data) 7); [lia|]. rewrite Hs. reflexivity.
Qed.

(** ** The latest-signal check *)

Lemma has_column_dropna (data : DataFrame) (c : string) :
  has_column (dropna data) c = has_column data c.
Proof. reflexivity. Qed.

Lemma feature_frame_dropna (data : DataFrame) :
  feature_frame data → feature_frame (dropna data).
Proof. intros H. exact H. Qed.

Lemma dropna_complete (data : DataFrame) :
  (∀ r, r ∈ df_rows data → row_complete (df_columns data) r = true) →
  dropna data = data.
Proof.
  intros H. destruct data as [cols rows]. unfold dropna. simpl in *. f_equal.
  induction rows as [|r rows IH]; [reflexivity|]. simpl.
  rewrite (H r) by left. f_equal. apply IH. intros r' Hr'. apply H. now right.
Qed.

Lemma iloc_from_end (data : DataFrame) (i : Z) :
  - len data ≤ i < 0 → iloc data i = iloc data (len data + i).
Proof. intros H. unfold iloc. now rewrite nth_row_from_end. Qed.

(** C8. On a frame with the three feature columns, with [c] the frame
    after [dropna]: with two bars or more, [check_buy_signal] returns the
    boolean the backtest's signal conditions give on [c] at the last
    position, together with the last bar's RSI, SMA_20 and SMA_50; with
    fewer than two bars it returns false and three [None]s, and raises
    nothing. A frame without NaN is its own cleaning. *)
Theorem check_buy_signal_latest (data : DataFrame) :
  feature_frame data →
  let c := dropna data in
  let last := len c - 1 in
  (len c < 2 → check_buy_signal (Some data) = Return (false, None, None, None))
  ∧ (2 ≤ len c →
     ∃ b : bool,
       signal_conditions c last = Return b
       ∧ b = detect_spec c last
       ∧ check_buy_signal (Some data)
         = Return (b, Some (cell c last "RSI"), Some (cell c last "SMA_20"),
                   Some (cell c last "SMA_50")))
  ∧ ((∀ r, r ∈ df_rows data → row_complete (df_columns data) r = true) →
     c = data).
Proof.
  intros Hf c last.
  assert (Hcols : forallb (has_column data) ["RSI"; "SMA_20"; "SMA_50"] = true)
    by exact Hf.
  split; [|split].
  - intros Hlt. unfold check_buy_signal. rewrite Hcols. cbn [negb].
    fold c. destruct (Z.ltb_spec (len c) 2); [reflexivity | lia].
  - intros Hge. exists (detect_spec c last).
    assert (Hfc : feature_frame c) by now apply feature_frame_dropna.
    split; [apply signal_conditions_detect; [exact Hfc | unfold last; lia]|].
    split; [reflexivity|].
    unfold check_buy_signal. rewrite Hcols. cbn [negb]. fold c.
    destruct (Z.ltb_spec (len c) 2); [lia|]. clearbody c.
    rewrite (iloc_from_end c (-1)), (iloc_from_end c (-2)) by lia.
    replace (len c + -1) with last by (unfold last; lia).
    replace (len c + -2) with (last - 1) by (unfold last; lia).
    apply feature_frame_columns in Hfc as (Hr & H20 & H50).
    unfold detect_spec, cell.
    destruct (iloc_in_range c last) as (t & Ht & ->); [unfold last; lia|].
    destruct (iloc_in_range c (last - 1)) as (y & Hy & ->); [unfold last; lia|].
    rewrite Ht, Hy. simpl.
    rewrite (getitem_column c t "RSI" Hr), (getitem_column c t "SMA_20" H20),
      (getitem_column c t "SMA_50" H50). simpl.
    destruct (fgtb (row_values t "SMA_20") (row_values t "SMA_50")); simpl.
    + rewrite (getitem_column c y "SMA_20" H20), (getitem_column c y "SMA_50" H50).
      reflexivity.
    + now rewrite andb_false_r.
  - apply dropna_complete.
Qed.

(** ** Runs on the heap *)

Lemma bind_run {A B} (m : M A) (k : A → M B) (h h' : gmap positive DataFrame) (a : A) :
  m h = (Return a, h') → (m ≫= k) h = k a h'.
Proof. intros H. unfold mbind, M_bind. now rewrite H. Qed.

Lemma bind_raise {A B} (m : M A) (k : A → M B) (h h' : gmap positive DataFrame) (e : Exn) :
  m h = (Raise e, h') → (m ≫= k) h = (Raise e, h').
Proof. intros H. unfold mbind, M_bind. now rewrite H. Qed.

Lemma deref_run (r : loc) (df : DataFrame) (h : gmap positive DataFrame) :
  h !! r = Some df → deref r h = (Return df, h).
Proof. intros H. unfold deref. now rewrite H. Qed.

Lemma setitem_run (r : loc) (df : DataFrame) (c : string) (vals : list float)
    (h : gmap positive DataFrame) :
  h !! r = Some df →
  setitem r c vals h = (Return tt, <[r := set_column df c vals]> h).
Proof.
  intros H. unfold setitem. rewrite (bind_run _ _ _ _ _ (deref_run _ _ _ H)).
  reflexivity.
Qed.

Section IndicatorRuns.

Variable rsi : list float → nat → list float.
Variable rolling_mean : nat → list float → list float.
Variable series_mean : list float → float.

Lemma calculate_indicators_run (r : loc) (df : DataFrame) (h : gmap positive DataFrame) :
  h !! r = Some df → has_column df "Close" = true →
  calculate_indicators rsi rolling_mean (Some r) h
    = (Return (Some r), <[r := with_indicators rsi rolling_mean df]> h).
Proof.
  intros H Hc. unfold calculate_indicators.
  rewrite (bind_run _ _ _ _ _ (deref_run _ _ _ H)). rewrite Hc. cbn [negb].
  set (df1 := set_column df "RSI" (rsi (column df "Close") 14)).
  set (df2 := set_column df1 "SMA_20" (rolling_mean 20 (column df1 "Close"))).
  set (df3 := set_column df2 "SMA_50" (rolling_mean 50 (column df2 "Close"))).
  assert (H1 : <[r := df1]> h !! r = Some df1) by apply lookup_insert_eq.
  assert (H2 : <[r := df2]> h !! r = Some df2) by apply lookup_insert_eq.
  erewrite bind_run;
    [|erewrite bind_run; [reflexivity | apply deref_run; exact H]].
  erewrite bind_run; [|apply setitem_run; exact H]. fold df1.
  erewrite bind_run;
    [|erewrite bind_run; [reflexivity | apply deref_run; exact H1]].
  erewrite bind_run; [|apply setitem_run; exact H1]. fold df2.
  rewrite insert_insert_eq.
  erewrite bind_run;
    [|erewrite bind_run; [reflexivity | apply deref_run; exact H2]].
  erewrite bind_run; [|apply setitem_run; exact H2]. fold df3.
  rewrite insert_insert_eq. reflexivity.
Qed.

Lemma calculate_indicators_no_close (r : loc) (df : DataFrame)
    (h : gmap positive DataFrame) :
  h !! r = Some df → has_column df "Close" = false →
  calculate_indicators rsi rolling_mean (Some r) h = (Return None, h).
Proof.
  intros H Hc. unfold calculate_indicators.
  rewrite (bind_run _ _ _ _ _ (deref_run _ _ _ H)). rewrite Hc. reflexivity.
Qed.

(** The heap and the result of a run on a live frame. *)
Lemma run_backtest_run (r : loc) (df : DataFrame) (ticker : string)
    (h : gmap positive DataFrame) :
  h !! r = Some df →
  run_backtest rsi rolling_mean series_mean (Some r) ticker h =
    if empty df then (Return None, h)
    else
      let c := fresh (dom h) in
      if has_column df "Close" then
        let h1 := <[c := with_indicators rsi rolling_mean df]> h in
        let d := fresh (dom h1) in
        (backtest_cleaned series_mean (dropna (with_indicators rsi rolling_mean df)) ticker,
         <[d := dropna (with_indicators rsi rolling_mean df)]> h1)
      else (Raise AttributeError, <[c := df]> h).
Proof.
  intros H. unfold run_backtest.
  rewrite (bind_run _ _ _ _ _ (deref_run _ _ _ H)).
  destruct (empty df); [reflexivity|].
  set (c := fresh (dom h)).
  assert (Hcopy : copy r h = (Return c, <[c := df]> h)).
  { unfold copy. rewrite (bind_run _ _ _ _ _ (deref_run _ _ _ H)). reflexivity. }
  rewrite (bind_run _ _ _ _ _ Hcopy).
  assert (Hc : <[c := df]> h !! c = Some df) by apply lookup_insert_eq.
  destruct (has_column df "Close") eqn:Hclose.
  - rewrite (bind_run _ _ _ _ _ (calculate_indicators_run _ _ _ Hc Hclose)).
    rewrite insert_insert_eq. cbv zeta.
    set (h1 := <[c := with_indicators rsi rolling_mean df]> h).
    assert (Hd : h1 !! c = Some (with_indicators rsi rolling_mean df)) by apply lookup_insert_eq.
    assert (Hdrop : dropna_obj c h1
              = (Return (fresh (dom h1)), <[fresh (dom h1) := dropna (with_indicators rsi rolling_mean df)]> h1)).
    { unfold dropna_obj. rewrite (bind_run _ _ _ _ _ (deref_run _ _ _ Hd)). reflexivity. }
    rewrite (bind_run _ _ _ _ _ Hdrop).
    erewrite bind_run; [|apply deref_run; apply lookup_insert_eq].
    reflexivity.
  - rewrite (bind_run _ _ _ _ _ (calculate_indicators_no_close _ _ _ Hc Hclose)).
    reflexivity.
Qed.

End IndicatorRuns.

(** ** The whole run *)

Lemma has_column_set_column_eq (df : DataFrame) (c : string) (vals : list float) :
  has_column (set_column df c vals) c = true.
Proof.
  unfold set_column. destruct (has_column df c) eqn:E.
  - exact E.
  - unfold has_column. cbn [df_columns].
    apply bool_decide_eq_true. apply elem_of_app. right. now left.
Qed.

Lemma has_column_set_column (df : DataFrame) (c c' : string) (vals : list float) :
  has_column df c' = true → has_column (set_column df c vals) c' = true.
Proof.
  intros H. unfold set_column. destruct (has_column df c); [exact H|].
  unfold has_column in *. cbn [df_columns].
  apply bool_decide_eq_true. apply bool_decide_eq_true in H.
  apply elem_of_app. now left.
Qed.

Lemma backtest_cleaned_returns (series_mean : list float → float)
    (data : DataFrame) (ticker : string) :
  feature_frame data → has_column data "Open" = true → 7 ≤ len data →
  ∃ trades, find_trades data ticker = Return trades
            ∧ backtest_cleaned series_mean data ticker = Return (Some (analyze_results series_mean trades)).
Proof.
  intros Hf Ho Hn.
  destruct (scan_in_range data ticker (range 1 (len data - 6)) Hf Ho)
    with (acc := @nil Trade) as (ts & Hs & _).
  { intros i Hi. apply elem_of_range in Hi. lia. }
  exists ts. split; [exact Hs|].
  unfold backtest_cleaned. destruct (Z.ltb_spec (len data) 7); [lia|].
  unfold find_trades. rewrite Hs. reflexivity.
Qed.

Section Run.

Variable rsi : list float → nat → list float.
Variable rolling_mean : nat → list float → list float.
Variable series_mean : list float → float.

Lemma with_indicators_features (df : DataFrame) :
  feature_frame (with_indicators rsi rolling_mean df).
Proof.
  unfold feature_frame, with_indicators. cbv zeta. cbn [forallb].
  rewrite !andb_true_iff. repeat split.
  - apply has_column_set_column, has_column_set_column, has_column_set_column_eq.
  - apply has_column_set_column, has_column_set_column_eq.
  - apply has_column_set_column_eq.
Qed.

Lemma with_indicators_keeps (df : DataFrame) (c : string) :
  has_column df c = true → has_column (with_indicators rsi rolling_mean df) c = true.
Proof.
  intros H. unfold with_indicators. cbv zeta.
  do 3 apply has_column_set_column. exact H.
Qed.

(** Outside the cases of C6: a non-empty frame without a Close column has
    no cleaned frame; [calculate_indicators] returns [None] for it and the
    call of [dropna] on that [None] raises. *)
Lemma run_backtest_without_close (r : loc) (df : DataFrame) (ticker : string)
    (h : gmap positive DataFrame) :
  h !! r = Some df → empty df = false → has_column df "Close" = false →
  cleaned rsi rolling_mean df = None
  ∧ fst (run_backtest rsi rolling_mean series_mean (Some r) ticker h) = Raise AttributeError.
Proof.
  intros H He Hc. rewrite (run_backtest_run _ _ _ _ _ _ _ H).
  unfold cleaned. rewrite He, Hc. split; reflexivity.
Qed.

(** C6. A run on no frame, on an empty frame, or on a frame whose
    indicator-cleaned frame has fewer than 7 bars returns [None]; it does
    not raise. On a price frame (one with an Open column) the run returns
    a summary exactly when the frame is not empty and its cleaned frame
    has at least 7 bars. *)
Theorem run_backtest_result (r : loc) (df : DataFrame) (ticker : string)
    (h : gmap positive DataFrame) :
  h !! r = Some df →
  let run := fst (run_backtest rsi rolling_mean series_mean (Some r) ticker h) in
  fst (run_backtest rsi rolling_mean series_mean None ticker h) = Return None
  ∧ (empty df = true → run = Return None)
  ∧ (∀ c, cleaned rsi rolling_mean df = Some c → len c < 7 → run = Return None)
  ∧ (has_column df "Open" = true →
     ((∃ s, run = Return (Some s)) ↔
      empty df = false ∧ ∃ c, cleaned rsi rolling_mean df = Some c ∧ 7 ≤ len c)).
Proof.
  intros H run. unfold run. rewrite (run_backtest_run _ _ _ _ _ _ _ H).
  unfold cleaned. split; [reflexivity|]. split; [|split].
  - intros ->. reflexivity.
  - intros c Hc Hlt. destruct (empty df); [reflexivity|].
    destruct (has_column df "Close"); [|discriminate].
    injection Hc as <-. cbn [fst]. unfold backtest_cleaned.
    destruct (Z.ltb_spec (len (dropna (with_indicators rsi rolling_mean df))) 7);
      [reflexivity | lia].
  - intros Ho. destruct (empty df); [split; [intros [s [=]] | intros [[=] _]]|].
    destruct (has_column df "Close"); cbn [fst].
    + set (c := dropna (with_indicators rsi rolling_mean df)). split.
      * intros [s Hs]. split; [reflexivity|]. exists c. split; [reflexivity|].
        unfold backtest_cleaned in Hs.
        destruct (Z.ltb_spec (len c) 7); [discriminate | lia].
      * intros (_ & c' & [= <-] & Hn).
        destruct (backtest_cleaned_returns series_mean c ticker) as (ts & _ & ->);
          [| | exact Hn | eauto].
        -- apply feature_frame_dropna, with_indicators_features.
        -- unfold c. rewrite has_column_dropna. now apply with_indicators_keeps.
    + split; [intros [s [=]] | intros (_ & c & [=] & _)].
Qed.

(** C10. A run changes no frame that existed before it: whatever it
    returns or raises, the frame it was given holds the columns and values
    it held before, because the indicators are computed on a copy. By
    itself [calculate_indicators] changes the frame it is given, which
    then has the RSI, SMA_20 and SMA_50 columns. *)
Theorem run_backtest_keeps_input (stock_data : option loc) (ticker : string)
    (h : gmap positive DataFrame) :
  let h' := snd (run_backtest rsi rolling_mean series_mean stock_data ticker h) in
  (∀ l, is_Some (h !! l) → h' !! l = h !! l)
  ∧ (∀ r, stock_data = Some r → h' !! r = h !! r)
  ∧ (∀ r df, h !! r = Some df → has_column df "Close" = true →
       let h2 := snd (calculate_indicators rsi rolling_mean (Some r) h) in
       h2 !! r = Some (with_indicators rsi rolling_mean df)
       ∧ feature_frame (with_indicators rsi rolling_mean df)).
Proof.
  intros h'.
  assert (Hlive : ∀ l, is_Some (h !! l) → h' !! l = h !! l).
  { intros l Hl. unfold h'. destruct stock_data as [r|]; [|reflexivity].
    destruct (h !! r) as [df|] eqn:Hr.
    - rewrite (run_backtest_run _ _ _ _ _ _ _ Hr).
      assert (Hc : fresh (dom h) ≠ l).
      { intros <-. apply (is_fresh (dom h)). now apply elem_of_dom. }
      destruct (empty df); [reflexivity|].
      destruct (has_column df "Close"); cbn [snd].
      + set (h1 := <[fresh (dom h) := with_indicators rsi rolling_mean df]> h).
        assert (H1 : h1 !! l = h !! l) by (unfold h1; now rewrite lookup_insert_ne).
        assert (Hd : fresh (dom h1) ≠ l).
        { intros <-. apply (is_fresh (dom h1)). apply elem_of_dom.
          rewrite H1. exact Hl. }
        rewrite lookup_insert_ne by exact Hd. exact H1.
      + now rewrite lookup_insert_ne.
    - unfold run_backtest.
      erewrite bind_raise; [reflexivity|]. unfold deref. now rewrite Hr. }
  split; [exact Hlive|]. split.
  - intros r ->. destruct (h !! r) as [df|] eqn:Hr.
    + rewrite <- Hr. apply Hlive. rewrite Hr. eauto.
    + unfold h', run_backtest.
      erewrite bind_raise; [exact Hr|]. unfold deref. now rewrite Hr.
  - intros r df Hr Hc h2. unfold h2.
    rewrite (calculate_indicators_run _ _ _ _ _ Hr Hc). cbn [snd].
    split; [apply lookup_insert_eq | apply with_indicators_features].
Qed.

End Run.

(** ** The properties on concrete frames *)

Import Examples.

Lemma signal_conditions_iff_witness :
  ∃ b : bool, signal_conditions (ten_bars 100 110) 2 = Return b ∧ b = true.
Proof.
  destruct (signal_conditions_iff (ten_bars 100 110) 2) as (b & Hb & Hiff & _).
  - reflexivity.
  - vm_compute. split; [discriminate | reflexivity].
  - exists b. split; [exact Hb|]. apply Hiff. vm_compute. auto.
Defined.

Lemma find_trades_one_per_signal_witness :
  ∃ t1 t2, find_trades twelve_bars "ACME" = Return [t1; t2]
           ∧ buy_price t1 = q 100 ∧ sell_price t1 = q 110
           ∧ buy_price t2 = q 104 ∧ sell_price t2 = q 91.
Proof.
  destruct (find_trades_one_per_signal twelve_bars "ACME")
    as (_ & _ & _ & trades & Ht & Hof & _).
  - reflexivity.
  - reflexivity.
  - vm_compute. discriminate.
  - change (List.filter (detect_spec twelve_bars) (range 1 (len twelve_bars - 6)))
      with [2; 4] in Hof.
    destruct trades as [|t1 [|t2 [|t3 ts]]];
      try (exfalso; apply Forall2_length in Hof; discriminate).
    exists t1, t2. split; [exact Ht|].
    apply Forall2_cons in Hof as [H1 Hof]. apply Forall2_cons in Hof as [H2 _].
    destruct H1 as (_ & Hb1 & Hs1 & _), H2 as (_ & Hb2 & Hs2 & _).
    rewrite Hb1, Hs1, Hb2, Hs2. repeat split; reflexivity.
Defined.



Lemma analyze_results_no_trades_witness :
  backtest_cleaned plain_mean seven_quiet_bars "ACME"
    = Return (Some {| total_trades := 0; win_ratio := PyInt 0;
                      avg_return := PyInt 0; trade_log := [] |}).
Proof.
  apply (proj2 (analyze_results_no_trades plain_mean)).
  - vm_compute. discriminate.
  - reflexivity.
Defined.

Lemma find_trades_short_witness : find_trades three_bars "ACME" = Return [].
Proof. apply find_trades_short. reflexivity. Defined.

Lemma check_buy_signal_latest_witness :
  ∃ b : bool,
    signal_conditions (dropna fresh_cross) (len (dropna fresh_cross) - 1) = Return b
    ∧ check_buy_signal (Some fresh_cross)
      = Return (b, Some (q 25), Some (q 13), Some (q 12))
    ∧ b = true.
Proof.
  destruct (check_buy_signal_latest fresh_cross) as (_ & H & _); [reflexivity|].
  destruct H as (b & Hs & Hb & Hc); [vm_compute; discriminate|].
  exists b. split; [exact Hs|]. split; [|rewrite Hb; reflexivity].
  rewrite Hc. reflexivity.
Defined.

Lemma scan_accesses_in_bounds_witness :
  find_trades (ten_bars 100 110) "ACME" ≠ Raise IndexError.
Proof.
  apply (scan_accesses_in_bounds (ten_bars 100 110) "ACME").
  vm_compute. discriminate.
Defined.

Lemma run_backtest_result_witness :
  ∃ s, fst (run_backtest example_rsi example_rolling_mean plain_mean (Some 1%positive) "ACME"
              one_frame_heap) = Return (Some s).
Proof.
  destruct (run_backtest_result example_rsi example_rolling_mean plain_mean 1%positive
              sixty_bars "ACME" one_frame_heap) as (_ & _ & _ & Hiff).
  - reflexivity.
  - apply Hiff; [reflexivity|]. split; [reflexivity|].
    exists (dropna (with_indicators example_rsi example_rolling_mean sixty_bars)).
    split; [reflexivity|]. vm_compute. discriminate.
Defined.

Lemma run_backtest_keeps_input_witness :
  snd (run_backtest example_rsi example_rolling_mean plain_mean (Some 1%positive) "ACME"
         one_frame_heap) !! 1%positive = Some sixty_bars.
Proof.
  destruct (run_backtest_keeps_input example_rsi example_rolling_mean plain_mean
              (Some 1%positive) "ACME" one_frame_heap) as (_ & H & _).
  rewrite (H 1%positive eq_refl). reflexivity.
Defined.



(** * Further properties of the code *)

(** ** The cleaned frame holds no NaN *)

Lemma dropna_rows_complete (df : DataFrame) (r : Row) :
  r ∈ df_rows (dropna df) → row_complete (df_columns df) r = true.
Proof.
  unfold dropna. cbn [df_rows]. intros H.
  apply list_elem_of_In, filter_In in H. apply H.
Qed.

Lemma row_complete_defined (cols : list string) (r : Row) (c : string) :
  row_complete cols r = true → c ∈ cols → is_nan (row_values r c) = false.
Proof.
  unfold row_complete. intros H Hc. apply list_elem_of_In in Hc.
  pose proof (proj1 (forallb_forall _ _) H c Hc) as Hn.
  now apply negb_true_iff in Hn.
Qed.

Lemma dropna_cell_defined (df : DataFrame) (i : Z) (c : string) :
  0 ≤ i < len (dropna df) → has_column df c = true →
  is_nan (cell (dropna df) i c) = false.
Proof.
  intros Hi Hc. unfold cell.
  destruct (nth_row_in_range (dropna df) i Hi) as (r & Hr & _). rewrite Hr.
  apply row_complete_defined with (cols := df_columns df).
  - apply dropna_rows_complete. eapply list_elem_of_lookup_2, Hr.
  - now apply bool_decide_eq_true in Hc.
Qed.

Lemma dropna_len_le (df : DataFrame) : len (dropna df) ≤ len df.
Proof.
  unfold len, dropna. cbn [df_rows]. apply inj_le, filter_length_le.
Qed.

(** ** [check_buy_signal] *)

Lemma check_buy_signal_eval (data : DataFrame) :
  feature_frame data →
  let c := dropna data in
  let last := len c - 1 in
  check_buy_signal (Some data) =
    if len c <? 2 then Return (false, None, None, None)
    else Return (detect_spec c last, Some (cell c last "RSI"),
                 Some (cell c last "SMA_20"), Some (cell c last "SMA_50")).
Proof.
  intros Hf c last.
  assert (Hcols : forallb (has_column data) ["RSI"; "SMA_20"; "SMA_50"] = true)
    by exact Hf.
  assert (Hfc : feature_frame c) by now apply feature_frame_dropna.
  unfold check_buy_signal. rewrite Hcols. cbn [negb]. fold c.
  destruct (Z.ltb_spec (len c) 2); [reflexivity|]. clearbody c.
  rewrite (iloc_from_end c (-1)), (iloc_from_end c (-2)) by lia.
  replace (len c + -1) with last by (unfold last; lia).
  replace (len c + -2) with (last - 1) by (unfold last; lia).
  apply feature_frame_columns in Hfc as (Hr & H20 & H50).
  unfold detect_spec, cell.
  destruct (iloc_in_range c last) as (t & Ht & ->); [unfold last; lia|].
  destruct (iloc_in_range c (last - 1)) as (y & Hy & ->); [unfold last; lia|].
  rewrite Ht, Hy. simpl.
  rewrite (getitem_column c t "RSI" Hr), (getitem_column c t "SMA_20" H20),
    (getitem_column c t "SMA_50" H50). simpl.
  destruct (fgtb (row_values t "SMA_20") (row_values t "SMA_50")); simpl.
  - rewrite (getitem_column c y "SMA_20" H20), (getitem_column c y "SMA_50" H50).
    reflexivity.
  - now rewrite andb_false_r.
Qed.

Lemma check_buy_signal_no_features (data : DataFrame) :
  ¬ feature_frame data → check_buy_signal (Some data) = Return (false, None, None, None).
Proof.
  unfold feature_frame, check_buy_signal. intros H.
  destruct (forallb (has_column data) ["RSI"; "SMA_20"; "SMA_50"]); [done | reflexivity].
Qed.

Lemma feature_frame_dec (data : DataFrame) : feature_frame data ∨ ¬ feature_frame data.
Proof.
  unfold feature_frame.
  destruct (forallb (has_column data) ["RSI"; "SMA_20"; "SMA_50"]); [now left | now right].
Qed.

(** X1. [check_buy_signal] never raises. It returns either false with
    three [None]s, or a boolean with three values; the values are there
    exactly when a frame is given, it has the three indicator columns and
    at least two bars are left after [dropna]. *)
Theorem check_buy_signal_never_raises (data : option DataFrame) :
  ∃ (b : bool) (r a s : option float),
    check_buy_signal data = Return (b, r, a, s)
    ∧ ((b = false ∧ r = None ∧ a = None ∧ s = None)
       ∨ (is_Some r ∧ is_Some a ∧ is_Some s))
    ∧ (is_Some r ↔
       ∃ d, data = Some d ∧ feature_frame d ∧ 2 ≤ len (dropna d)).
Proof.
  destruct data as [d|].
  - destruct (feature_frame_dec d) as [Hf|Hf].
    + rewrite (check_buy_signal_eval d Hf).
      destruct (Z.ltb_spec (len (dropna d)) 2) as [Hlt|Hge].
      * exists false, None, None, None. split; [reflexivity|]. split; [now left|].
        split; [intros [x [=]] | intros (d' & [= <-] & _ & Hn); lia].
      * do 4 eexists. split; [reflexivity|]. split; [right; eauto|].
        split; [intros _; eauto | eauto].
    + rewrite (check_buy_signal_no_features d Hf).
      exists false, None, None, None. split; [reflexivity|]. split; [now left|].
      split; [intros [x [=]] | intros (d' & [= <-] & Hf' & _); done].
  - exists false, None, None, None. split; [reflexivity|]. split; [now left|].
    split; [intros [x [=]] | intros (d' & [=] & _)].
Qed.

(** X2. The values [check_buy_signal] returns are those of the last bar
    left after [dropna], so none of them is NaN; and when the signal is
    true the returned RSI is below 30 and the returned SMA_20 is above the
    returned SMA_50. *)
Theorem check_buy_signal_values (data : DataFrame) (b : bool) (r a s : float) :
  check_buy_signal (Some data) = Return (b, Some r, Some a, Some s) →
  let c := dropna data in
  let last := len c - 1 in
  r = cell c last "RSI" ∧ a = cell c last "SMA_20" ∧ s = cell c last "SMA_50"
  ∧ is_nan r = false ∧ is_nan a = false ∧ is_nan s = false
  ∧ (b = true → fltb r (of_int 30) = true ∧ fgtb a s = true).
Proof.
  intros H c last.
  destruct (feature_frame_dec data) as [Hf|Hf];
    [|rewrite (check_buy_signal_no_features data Hf) in H; discriminate].
  rewrite (check_buy_signal_eval data Hf) in H. fold c last in H.
  destruct (Z.ltb_spec (len c) 2) as [Hlt|Hge]; [discriminate|].
  injection H as Hb <- <- <-.
  apply feature_frame_columns in Hf as (Hr & H20 & H50).
  assert (Hlast : 0 ≤ last < len c) by (unfold last; lia).
  do 3 (split; [reflexivity|]).
  do 3 (split; [now apply dropna_cell_defined|]).
  intros ->. unfold detect_spec in Hb.
  apply andb_true_iff in Hb as [H1 Hb]. apply andb_true_iff in Hb as [H2 _].
  split; assumption.
Qed.

(** X8. The frame [run_backtest] scans (the indicator frame after
    [dropna]) has a value that is not NaN at every position of every
    column, among them RSI, SMA_20 and SMA_50, and it is no longer than the
    input. *)
Theorem cleaned_frame_defined (rsi : list float → nat → list float)
    (rolling_mean : nat → list float → list float) (df c : DataFrame) :
  cleaned rsi rolling_mean df = Some c →
  feature_frame c
  ∧ len c ≤ len df
  ∧ (∀ col, has_column df col = true → has_column c col = true)
  ∧ ∀ i col, 0 ≤ i < len c → has_column c col = true →
             is_nan (cell c i col) = false.
Proof.
  unfold cleaned. destruct (has_column df "Close"); [|discriminate].
  intros [= <-]. split; [|split; [|split]].
  - apply feature_frame_dropna, with_indicators_features.
  - etransitivity; [apply dropna_len_le|].
    unfold with_indicators, set_column, len. cbn [df_rows].
    rewrite !length_imap. reflexivity.
  - intros col H. rewrite has_column_dropna. now apply with_indicators_keeps.
  - intros i col Hi Hc. now apply dropna_cell_defined.
Qed.

(** ** [calculate_indicators] *)

Lemma len_set_column (df : DataFrame) (c : string) (vals : list float) :
  len (set_column df c vals) = len df.
Proof. unfold len, set_column. cbn [df_rows]. now rewrite length_imap. Qed.

Lemma label_set_column (df : DataFrame) (c : string) (vals : list float) (i : Z) :
  label (set_column df c vals) i = label df i.
Proof.
  unfold label, set_column. cbn [df_rows]. rewrite list_lookup_imap.
  now destruct (df_rows df !! Z.to_nat i).
Qed.

Lemma cell_set_column_other (df : DataFrame) (c c' : string) (vals : list float) (i : Z) :
  c' ≠ c → cell (set_column df c vals) i c' = cell df i c'.
Proof.
  intros Hne. unfold cell, set_column. cbn [df_rows]. rewrite list_lookup_imap.
  destruct (df_rows df !! Z.to_nat i); [|reflexivity]. simpl.
  now rewrite (proj2 (String.eqb_neq c' c) Hne).
Qed.

Lemma cell_set_column_same (df : DataFrame) (c : string) (vals : list float) (i : Z) :
  0 ≤ i < len df →
  cell (set_column df c vals) i c = default NaN (vals !! Z.to_nat i).
Proof.
  intros Hi. unfold cell, set_column. cbn [df_rows]. rewrite list_lookup_imap.
  destruct (nth_row_in_range df i Hi) as (r & -> & _). simpl.
  now rewrite String.eqb_refl.
Qed.

Lemma column_set_column_other (df : DataFrame) (c c' : string) (vals : list float) :
  c' ≠ c → column (set_column df c vals) c' = column df c'.
Proof.
  intros Hne. unfold column, set_column. cbn [df_rows].
  apply list_eq. intros k. rewrite !list_lookup_fmap, list_lookup_imap.
  destruct (df_rows df !! k); [|reflexivity]. simpl.
  now rewrite (proj2 (String.eqb_neq c' c) Hne).
Qed.

Section IndicatorEffect.

Variable rsi : list float → nat → list float.
Variable rolling_mean : nat → list float → list float.

(** X4. [calculate_indicators] is all or nothing. Without a Close column
    it returns [None] and changes nothing. With one it returns the
    reference it was given and rewrites that object alone: the frame keeps
    its bars, its labels and every other column, and gains RSI, SMA_20 and
    SMA_50, each computed from the Close column as it was (a position the
    computed series does not cover holds NaN). *)
Theorem calculate_indicators_effect (r : loc) (df : DataFrame)
    (h : gmap positive DataFrame) :
  h !! r = Some df →
  let out := calculate_indicators rsi rolling_mean (Some r) h in
  let close := column df "Close" in
  (has_column df "Close" = false → out = (Return None, h))
  ∧ (has_column df "Close" = true →
     ∃ df', out = (Return (Some r), <[r := df']> h)
       ∧ len df' = len df
       ∧ (∀ i, label df' i = label df i)
       ∧ (∀ c, has_column df c = true → has_column df' c = true)
       ∧ feature_frame df'
       ∧ (∀ i c, c ∉ ["RSI"; "SMA_20"; "SMA_50"] → cell df' i c = cell df i c)
       ∧ (∀ i, 0 ≤ i < len df →
            cell df' i "RSI" = default NaN (rsi close 14 !! Z.to_nat i)
            ∧ cell df' i "SMA_20" = default NaN (rolling_mean 20 close !! Z.to_nat i)
            ∧ cell df' i "SMA_50" = default NaN (rolling_mean 50 close !! Z.to_nat i))).
Proof.
  intros H out close. split.
  - intros Hc. apply (calculate_indicators_no_close _ _ _ _ _ H Hc).
  - intros Hc. exists (with_indicators rsi rolling_mean df).
    split; [apply (calculate_indicators_run _ _ _ _ _ H Hc)|].
    unfold with_indicators. cbv zeta.
    rewrite !column_set_column_other by discriminate. fold close.
    set (df1 := set_column df "RSI" (rsi close 14)).
    set (df2 := set_column df1 "SMA_20" (rolling_mean 20 close)).
    split; [unfold df2, df1; now rewrite !len_set_column|].
    split; [intros i; unfold df2, df1; now rewrite !label_set_column|].
    split; [intros c Hcol; now do 3 apply has_column_set_column|].
    split.
    { pose proof (with_indicators_features rsi rolling_mean df) as Hf.
      unfold with_indicators in Hf. cbv zeta in Hf.
      rewrite !column_set_column_other in Hf by discriminate. exact Hf. }
    split.
    + intros i c Hn. unfold df2, df1.
      rewrite !cell_set_column_other; [reflexivity|..];
        intros ->; apply Hn; set_solver.
    + intros i Hi. split; [|split].
      * unfold df2, df1. rewrite !cell_set_column_other by discriminate.
        now apply cell_set_column_same.
      * unfold df2. rewrite cell_set_column_other by discriminate.
        apply cell_set_column_same. unfold df1. now rewrite len_set_column.
      * apply cell_set_column_same. unfold df2, df1. now rewrite !len_set_column.
Qed.

Variable series_mean : list float → float.

(** X10. On a frame that is not empty and has no Close column,
    [run_backtest] raises AttributeError ([calculate_indicators] returned
    [None], on which [dropna] is called); the frame it was given is left as
    it was. *)
Theorem run_backtest_missing_close (r : loc) (df : DataFrame) (ticker : string)
    (h : gmap positive DataFrame) :
  h !! r = Some df → empty df = false → has_column df "Close" = false →
  let out := run_backtest rsi rolling_mean series_mean (Some r) ticker h in
  fst out = Raise AttributeError ∧ snd out !! r = Some df.
Proof.
  intros H He Hc out. unfold out.
  rewrite (run_backtest_run _ _ _ _ _ _ _ H), He, Hc. cbn [fst snd].
  split; [reflexivity|]. rewrite lookup_insert_ne; [exact H|].
  intros E. apply (is_fresh (dom h)). rewrite E. apply elem_of_dom. eauto.
Qed.

End IndicatorEffect.

(** ** More on the scan *)

(** X5. A signal on one bar rules out a signal on the next: after a bar
    on which the signal conditions hold, they fail on the following bar. *)
Theorem signals_not_consecutive (data : DataFrame) (i : Z) :
  feature_frame data → 1 ≤ i → i + 1 < len data →
  signal_conditions data i = Return true →
  signal_conditions data (i + 1) = Return false.
Proof.
  intros Hf H1 Hn. rewrite !signal_conditions_detect by (assumption || lia).
  intros [= Hd]. now rewrite (detect_spec_not_consecutive data i Hd).
Qed.

(** X7. Seven bars pass the length check but leave the loop nothing to
    visit: whatever the frame holds, the result is the summary without
    trades. The first signal can be looked at from eight bars on. *)
Theorem seven_bars_no_trades (series_mean : list float → float)
    (data : DataFrame) (ticker : string) :
  len data = 7 →
  find_trades data ticker = Return []
  ∧ backtest_cleaned series_mean data ticker
    = Return (Some {| total_trades := 0; win_ratio := PyInt 0;
                      avg_return := PyInt 0; trade_log := [] |}).
Proof.
  intros H.
  assert (Hs : find_trades data ticker = Return []).
  { unfold find_trades, range. rewrite H. reflexivity. }
  split; [exact Hs|]. unfold backtest_cleaned. rewrite H, Hs. reflexivity.
Qed.

Lemma log_trade_no_open (data : DataFrame) (ticker : string) (i : Z) :
  has_column data "Open" = false → 0 ≤ i + 1 < len data →
  log_trade data ticker i = Raise (KeyError "Open").
Proof.
  intros Ho Hi. unfold log_trade.
  destruct (index_at_in_range data (i + 1) Hi) as (bd & _ & ->).
  unfold column_iloc. rewrite Ho. reflexivity.
Qed.

Lemma scan_no_open (data : DataFrame) (ticker : string) (idxs : list Z) :
  feature_frame data → has_column data "Open" = false →
  (∀ i, i ∈ idxs → 1 ≤ i ∧ i + 6 < len data) →
  ∀ acc, scan data ticker idxs acc =
         match List.filter (detect_spec data) idxs with
         | [] => Return acc
         | _ => Raise (KeyError "Open")
         end.
Proof.
  intros Hf Ho. induction idxs as [|i idxs IH]; intros Hin acc; [reflexivity|].
  assert (Hi : 1 ≤ i ∧ i + 6 < len data) by (apply Hin; left).
  assert (Hin' : ∀ j, j ∈ idxs → 1 ≤ j ∧ j + 6 < len data)
    by (intros j Hj; apply Hin; now right).
  simpl. rewrite signal_conditions_detect by (assumption || lia). simpl.
  destruct (detect_spec data i).
  - rewrite log_trade_no_open by (assumption || lia). reflexivity.
  - now apply IH.
Qed.

(** X9. On a feature frame without an Open column the scan raises
    KeyError for "Open" as soon as a visited bar gives a signal, and
    returns the empty list when none does. *)
Theorem find_trades_missing_open (data : DataFrame) (ticker : string) :
  feature_frame data → has_column data "Open" = false →
  let hits := List.filter (detect_spec data) (range 1 (len data - 6)) in
  (hits = [] → find_trades data ticker = Return [])
  ∧ (hits ≠ [] → find_trades data ticker = Raise (KeyError "Open")).
Proof.
  intros Hf Ho hits. unfold find_trades.
  rewrite (scan_no_open data ticker _ Hf Ho)
    by (intros i Hi; apply elem_of_range in Hi; lia).
  fold hits. destruct hits; split; intros H; done.
Qed.

Lemma range_nil (lo hi : Z) : hi ≤ lo → range lo hi = [].
Proof. intros H. unfold range. now replace (Z.to_nat (hi - lo)) with 0%nat by lia. Qed.

Lemma range_cons (lo hi : Z) : lo < hi → range lo hi = lo :: range (lo + 1) hi.
Proof.
  intros H. unfold range.
  replace (Z.to_nat (hi - lo)) with (S (Z.to_nat (hi - (lo + 1)))) by lia.
  cbn [seq map]. f_equal; [lia|].
  rewrite <- fmap_S_seq, <- list_fmap_compose.
  apply list_fmap_ext. intros _ k _. simpl. lia.
Qed.

Section Spaced.

Variable P : Z → bool.
Hypothesis P_spaced : ∀ i, P i = true → P (i + 1) = false.

(** Among [m] consecutive positions at most every other one satisfies a
    predicate that never holds twice in a row. *)
Lemma filter_spaced_length (m : nat) :
  ∀ lo, let hits := List.filter P (range lo (lo + Z.of_nat m)) in
        (2 * length hits ≤ m + 1)%nat
        ∧ (P lo = false → (2 * length hits ≤ m)%nat).
Proof.
  induction m as [|m IH]; intros lo hits.
  - unfold hits. rewrite range_nil by lia. simpl. lia.
  - unfold hits. rewrite range_cons by lia.
    replace (lo + Z.of_nat (S m)) with (lo + 1 + Z.of_nat m) by lia.
    destruct (IH (lo + 1)) as [IHa IHb]. cbn [List.filter].
    destruct (P lo) eqn:E.
    + specialize (IHb (P_spaced lo E)). cbn [length]. split; [lia | discriminate].
    + split; [lia | intros _; lia].
Qed.

End Spaced.

(** X6. A scan over [n >= 7] cleaned bars logs at most [(n - 6) / 2]
    trades: signals cannot fall on neighbouring bars, so at most every
    other visited bar gives a trade. *)
Theorem trade_count_bound (data : DataFrame) (ticker : string) :
  feature_frame data → has_column data "Open" = true → 7 ≤ len data →
  ∃ trades, find_trades data ticker = Return trades
            ∧ 2 * Z.of_nat (length trades) ≤ len data - 6.
Proof.
  intros Hf Ho Hn.
  destruct (scan_in_range data ticker (range 1 (len data - 6)) Hf Ho)
    with (acc := @nil Trade) as (ts & Hs & Hts).
  { intros i Hi. apply elem_of_range in Hi. lia. }
  exists ts. split; [exact Hs|].
  apply Forall2_length in Hts. rewrite <- Hts.
  pose proof (filter_spaced_length (detect_spec data)
                (detect_spec_not_consecutive data) (Z.to_nat (len data - 7)) 1) as [H _].
  cbv zeta in H.
  replace (1 + Z.of_nat (Z.to_nat (len data - 7))) with (len data - 6) in H by lia.
  lia.
Qed.

(** ** More on the summary *)

Lemma filter_is_win_le (trades : list Trade) :
  (length (List.filter is_win trades) ≤ length trades)%nat.
Proof. apply filter_length_le. Qed.

(** X11. Every summary counts its own log: [total_trades] is the length
    of [trade_log], which is the list of trades given. When there are
    trades, the win ratio is the two-decimal text of a number between 0 and
    100. *)
Theorem summary_counts_its_log (series_mean : list float → float)
    (trades : list Trade) :
  let s := analyze_results series_mean trades in
  trade_log s = trades
  ∧ total_trades s = Z.of_nat (length (trade_log s))
  ∧ (trades ≠ [] →
     ∃ x : Q, win_ratio s = PyStr (format_2f (Fin x) +:+ "%")
              ∧ (0 <= x)%Q ∧ (x <= 100)%Q).
Proof.
  intros s. unfold s. destruct trades as [|t ts]; [repeat split; done|].
  set (trades := t :: ts).
  set (N := Z.of_nat (length trades)).
  set (W := Z.of_nat (length (List.filter is_win trades))).
  assert (HN : 0 < N) by (unfold N, trades; simpl; lia).
  assert (HW : 0 ≤ W ≤ N) by (pose proof (filter_is_win_le trades); unfold W, N; lia).
  unfold analyze_results. fold trades. fold N W. cbn [trade_log total_trades win_ratio].
  split; [reflexivity|]. split; [reflexivity|]. intros _.
  destruct (Z.ltb_spec 0 N); [|lia].
  destruct (win_ratio_value W N HW HN) as (x & Hx & H0 & H100 & _).
  exists x. rewrite Hx. split; [reflexivity|]. split; assumption.
Qed.

(** ** Fetching and the two modes *)

Section MainProperties.

Variable rsi : list float → nat → list float.
Variable rolling_mean : nat → list float → list float.
Variable series_mean : list float → float.
Variable history : string → string → Result DataFrame.
Variable clock : nat → string.

Lemma fetch_stock_data_raise (ticker period : string) (e : Exn)
    (h : gmap positive DataFrame) :
  history ticker period = Raise e →
  fetch_stock_data history ticker period h = (Return None, h).
Proof. intros H. unfold fetch_stock_data. now rewrite H. Qed.

Lemma fetch_stock_data_frame (ticker period : string) (data : DataFrame)
    (h : gmap positive DataFrame) :
  history ticker period = Return data →
  fetch_stock_data history ticker period h
    = (Return (if empty data then None else Some (fresh (dom h))),
       <[fresh (dom h) := data]> h).
Proof.
  intros H. unfold fetch_stock_data. rewrite H.
  erewrite bind_run; [|reflexivity].
  erewrite bind_run; [|apply deref_run, lookup_insert_eq].
  now destruct (empty data).
Qed.

Lemma fresh_not_live (h : gmap positive DataFrame) (l : loc) :
  is_Some (h !! l) → fresh (dom h) ≠ l.
Proof. intros Hl <-. apply (is_fresh (dom h)). now apply elem_of_dom. Qed.

(** X12. [fetch_stock_data] never raises. It returns [None] when the
    download raised or came back empty, and otherwise a reference to a new
    object holding the downloaded frame, which is not empty; no frame that
    existed before is changed. *)
Theorem fetch_stock_data_result (ticker period : string)
    (h : gmap positive DataFrame) :
  let out := fetch_stock_data history ticker period h in
  (∀ l, is_Some (h !! l) → snd out !! l = h !! l)
  ∧ match history ticker period with
    | Raise _ => out = (Return None, h)
    | Return data =>
        if empty data then fst out = Return None
        else ∃ r, fst out = Return (Some r) ∧ h !! r = None
                  ∧ snd out !! r = Some data
    end.
Proof.
  intros out. unfold out.
  destruct (history ticker period) as [data|e] eqn:H.
  - rewrite (fetch_stock_data_frame _ _ _ _ H). cbn [fst snd]. split.
    + intros l Hl. rewrite lookup_insert_ne; [reflexivity|].
      now apply fresh_not_live.
    + destruct (empty data); [reflexivity|].
      exists (fresh (dom h)). split; [reflexivity|]. split.
      * apply not_elem_of_dom, is_fresh.
      * apply lookup_insert_eq.
  - rewrite (fetch_stock_data_raise _ _ _ _ H). split; reflexivity.
Qed.

Lemma backtest_loop_cons (t : string) (rest : list string)
    (acc : list (list Trade)) :
  backtest_loop rsi rolling_mean series_mean history (t :: rest) acc =
    (stock_data ← fetch_stock_data history t "2y";
     results ← run_backtest rsi rolling_mean series_mean stock_data t;
     match results with
     | Some res =>
         match trade_log res with
         | [] => backtest_loop rsi rolling_mean series_mean history rest acc
         | _ => backtest_loop rsi rolling_mean series_mean history rest (acc ++ [trade_log res])
         end
     | None => backtest_loop rsi rolling_mean series_mean history rest acc
     end).
Proof. reflexivity. Qed.

Lemma backtest_loop_logs (tickers : list string) :
  ∀ acc h logs h',
    backtest_loop rsi rolling_mean series_mean history tickers acc h = (Return logs, h') →
    Forall (λ l, l ≠ []) acc → Forall (λ l, l ≠ []) logs.
Proof.
  induction tickers as [|t rest IH]; intros acc h logs h' H Hacc.
  - injection H as <- _. exact Hacc.
  - rewrite backtest_loop_cons in H. unfold mbind, M_bind in H.
    destruct (fetch_stock_data history t "2y" h) as [[sd|e] h1]; [|discriminate].
    destruct (run_backtest rsi rolling_mean series_mean sd t h1) as [[[res|]|e] h2];
      [| |discriminate].
    + destruct (trade_log res) as [|tr trs] eqn:E.
      * eapply IH; eassumption.
      * eapply IH; [eassumption|]. apply Forall_app. split; [exact Hacc|].
        constructor; [discriminate | constructor].
    + eapply IH; eassumption.
Qed.

(** X13. When the backtest mode has something to log, the combined log
    is not empty and the overall summary is the one [run_backtest] would
    build for that log: the same count, win-ratio text and average-return
    text. *)
Theorem backtest_mode_summary (tickers : list string) (h : gmap positive DataFrame)
    (combined : list Trade) (overall : OverallSummary) :
  fst (backtest_mode rsi rolling_mean series_mean history tickers h)
    = Return (Some (combined, overall)) →
  combined ≠ []
  ∧ analyze_results series_mean combined
    = {| total_trades := overall_total_trades overall;
         win_ratio := PyStr (overall_win_ratio overall);
         avg_return := PyStr (overall_avg_return overall);
         trade_log := combined |}.
Proof.
  unfold backtest_mode, mbind, M_bind.
  destruct (backtest_loop rsi rolling_mean series_mean history tickers [] h)
    as [[logs|e] h1] eqn:E; [|discriminate].
  pose proof (backtest_loop_logs _ _ _ _ _ E (Forall_nil_2 _)) as Hne.
  destruct logs as [|l ls]; [discriminate|].
  assert (Hc : concat (l :: ls) ≠ []).
  { apply Forall_cons in Hne as [Hl _]. destruct l; [done | discriminate]. }
  unfold mret, M_ret. cbn [fst]. generalize dependent (concat (l :: ls)).
  intros comb Hc [= <- <-]. split; [exact Hc|].
  destruct comb as [|t ts]; [done | reflexivity].
Qed.

(** X14. A ticker whose download raised or came back empty, or whose
    cleaned frame has fewer than 7 bars, adds nothing to the backtest mode:
    the loop goes on with the remaining tickers and the logs collected so
    far. *)
Theorem backtest_loop_skips (t : string) (rest : list string)
    (acc : list (list Trade)) (h : gmap positive DataFrame) :
  (∃ e, history t "2y" = Raise e)
  ∨ (∃ data, history t "2y" = Return data
             ∧ (empty data = true
                ∨ ∃ c, cleaned rsi rolling_mean data = Some c ∧ len c < 7)) →
  ∃ h', backtest_loop rsi rolling_mean series_mean history (t :: rest) acc h
        = backtest_loop rsi rolling_mean series_mean history rest acc h'.
Proof.
  intros [[e He] | (data & Hd & Hcase)]; rewrite backtest_loop_cons.
  - exists h. erewrite bind_run; [|apply (fetch_stock_data_raise _ _ _ _ He)].
    erewrite bind_run; [|reflexivity]. reflexivity.
  - erewrite bind_run; [|apply (fetch_stock_data_frame _ _ _ _ Hd)].
    destruct (empty data) eqn:Ee.
    + eexists. erewrite bind_run; [|reflexivity]. reflexivity.
    + destruct Hcase as [[=] | (c & Hc & Hlt)].
      set (h1 := <[fresh (dom h) := data]> h).
      assert (Hrun : ∃ h2, run_backtest rsi rolling_mean series_mean (Some (fresh (dom h))) t h1
                           = (Return None, h2)).
      { rewrite (run_backtest_run rsi rolling_mean series_mean _ data)
          by apply lookup_insert_eq.
        rewrite Ee. unfold cleaned in Hc.
        destruct (has_column data "Close"); [|discriminate].
        injection Hc as Hc. rewrite Hc. cbv zeta. unfold backtest_cleaned.
        destruct (Z.ltb_spec (len c) 7); [eexists; reflexivity | lia]. }
      destruct Hrun as [h2 Hrun]. exists h2.
      rewrite (bind_run _ _ _ _ _ Hrun). reflexivity.
Qed.

Lemma live_loop_cons (t : string) (rest : list string) (signals : list SignalRecord) :
  live_loop rsi rolling_mean history clock (t :: rest) signals =
    (stock_data ← fetch_stock_data history t "6mo";
     match stock_data with
     | None => live_loop rsi rolling_mean history clock rest signals
     | Some _ =>
         data_with_indicators ← calculate_indicators rsi rolling_mean stock_data;
         match data_with_indicators with
         | None => live_loop rsi rolling_mean history clock rest signals
         | Some d =>
             df ← deref d;
             checked ← lift (check_buy_signal (Some df));
             match checked with
             | (signal, Some rsi_value, sma20, sma50) =>
                 live_loop rsi rolling_mean history clock rest
                   (signals ++ [{| sig_date := clock (length signals);
                                   sig_stock := t;
                                   sig_rsi := rsi_value;
                                   sig_sma_20 := sma20;
                                   sig_sma_50 := sma50;
                                   sig_signal := signal |}])
             | (_, None, _, _) => live_loop rsi rolling_mean history clock rest signals
             end
         end
     end).
Proof. reflexivity. Qed.

(** One pass of the live loop: the ticker is skipped, or one record with
    sound values is appended. *)
Lemma live_loop_step (t : string) (rest : list string) (signals : list SignalRecord)
    (h : gmap positive DataFrame) :
  ∃ h', live_loop rsi rolling_mean history clock (t :: rest) signals h
          = live_loop rsi rolling_mean history clock rest signals h'
        ∨ ∃ s, sig_stock s = t ∧ sound_signal s
               ∧ live_loop rsi rolling_mean history clock (t :: rest) signals h
                 = live_loop rsi rolling_mean history clock rest (signals ++ [s]) h'.
Proof.
  rewrite live_loop_cons.
  destruct (history t "6mo") as [data|e] eqn:Hh.
  - rewrite (bind_run _ _ _ _ _ (fetch_stock_data_frame _ _ _ _ Hh)).
    set (r := fresh (dom h)). set (h1 := <[r := data]> h).
    assert (Hr : h1 !! r = Some data) by apply lookup_insert_eq.
    destruct (empty data); [exists h1; now left|].
    destruct (has_column data "Close") eqn:Hc.
    + rewrite (bind_run _ _ _ _ _ (calculate_indicators_run rsi rolling_mean _ _ _ Hr Hc)).
      set (wi := with_indicators rsi rolling_mean data).
      set (h2 := <[r := wi]> h1).
      rewrite (bind_run _ _ _ _ _ (deref_run r wi h2 (lookup_insert_eq _ _ _))).
      assert (Hf : feature_frame wi) by apply with_indicators_features.
      exists h2. unfold mbind at 1, M_bind at 1, lift.
      rewrite (check_buy_signal_eval wi Hf).
      destruct (Z.ltb_spec (len (dropna wi)) 2) as [Hlt|Hge]; [now left|].
      right. eexists. split; [|split; [|reflexivity]]; [reflexivity|].
      apply feature_frame_columns in Hf as (Hrsi & H20 & H50).
      assert (Hlast : 0 ≤ len (dropna wi) - 1 < len (dropna wi)) by lia.
      unfold sound_signal. cbn [sig_rsi sig_sma_20 sig_sma_50 sig_signal].
      split; [now apply dropna_cell_defined|].
      do 2 eexists. split; [reflexivity|]. split; [reflexivity|].
      split; [now apply dropna_cell_defined|].
      split; [now apply dropna_cell_defined|].
      unfold detect_spec. intros Hd.
      apply andb_true_iff in Hd as [H1 Hd]. apply andb_true_iff in Hd as [H2 _].
      split; assumption.
    + rewrite (bind_run _ _ _ _ _
                 (calculate_indicators_no_close rsi rolling_mean _ _ _ Hr Hc)).
      exists h1. now left.
  - rewrite (bind_run _ _ _ _ _ (fetch_stock_data_raise _ _ _ _ Hh)).
    exists h. now left.
Qed.

Lemma live_loop_sound (tickers : list string) :
  ∀ acc h, ∃ sigs h',
    live_loop rsi rolling_mean history clock tickers acc h = (Return (acc ++ sigs), h')
    ∧ sublist (map sig_stock sigs) tickers
    ∧ Forall sound_signal sigs.
Proof.
  induction tickers as [|t rest IH]; intros acc h.
  - exists [], h. rewrite app_nil_r. repeat split; constructor.
  - destruct (live_loop_step t rest acc h) as (h1 & [-> | (s & Hs & Hok & ->)]).
    + destruct (IH acc h1) as (sigs & h' & -> & Hsub & Hall).
      exists sigs, h'. split; [reflexivity|]. split; [now constructor | exact Hall].
    + destruct (IH (acc ++ [s]) h1) as (sigs & h' & -> & Hsub & Hall).
      exists (s :: sigs), h'. rewrite <- app_assoc. split; [reflexivity|].
      split; [|now constructor]. cbn [map]. rewrite Hs. now constructor.
Qed.

(** X16. The live mode never raises, whatever is downloaded. What it
    hands to the logger is never an empty list; it holds at most one record
    per ticker, in the order of the tickers, and in every record the RSI
    and both averages are present and not NaN, and a signal flag that is
    set comes with an RSI below 30 and a 20-day average above the 50-day
    average. *)
Theorem live_mode_never_raises (tickers : list string) (h : gmap positive DataFrame) :
  ∃ logged h',
    live_mode rsi rolling_mean history clock tickers h = (Return logged, h')
    ∧ match logged with
      | None => True
      | Some sigs =>
          sigs ≠ [] ∧ sublist (map sig_stock sigs) tickers
          ∧ Forall sound_signal sigs
      end.
Proof.
  destruct (live_loop_sound tickers [] h) as (sigs & h' & Hl & Hsub & Hall).
  unfold live_mode. rewrite (bind_run _ _ _ _ _ Hl). cbn [app].
  destruct sigs as [|s sigs].
  - exists None, h'. split; [reflexivity | exact I].
  - exists (Some (s :: sigs)), h'. split; [reflexivity|]. now repeat split.
Qed.

(** X15. A downloaded frame that is not empty and has no Close column
    stops the backtest mode with AttributeError, whatever tickers follow,
    while the live mode skips that ticker and goes on. *)
Theorem missing_close_stops_backtest_only (t : string) (rest : list string)
    (live_data back_data : DataFrame) (h : gmap positive DataFrame) :
  history t "6mo" = Return live_data → empty live_data = false →
  has_column live_data "Close" = false →
  history t "2y" = Return back_data → empty back_data = false →
  has_column back_data "Close" = false →
  fst (backtest_mode rsi rolling_mean series_mean history (t :: rest) h) = Raise AttributeError
  ∧ ∀ signals, ∃ h',
      live_loop rsi rolling_mean history clock (t :: rest) signals h
      = live_loop rsi rolling_mean history clock rest signals h'.
Proof.
  intros Hl Hle Hlc Hb Hbe Hbc. split.
  - unfold backtest_mode. erewrite bind_raise; [reflexivity|].
    rewrite backtest_loop_cons.
    rewrite (bind_run _ _ _ _ _ (fetch_stock_data_frame _ _ _ _ Hb)). rewrite Hbe.
    erewrite bind_raise; [reflexivity|].
    rewrite (run_backtest_run rsi rolling_mean series_mean _ back_data) by apply lookup_insert_eq.
    rewrite Hbe, Hbc. reflexivity.
  - intros signals. rewrite live_loop_cons.
    rewrite (bind_run _ _ _ _ _ (fetch_stock_data_frame _ _ _ _ Hl)). rewrite Hle.
    eexists.
    rewrite (bind_run _ _ _ _ _
               (calculate_indicators_no_close rsi rolling_mean _ _ _
                  (lookup_insert_eq _ _ _) Hlc)).
    reflexivity.
Qed.

End MainProperties.

(** ** The further properties on concrete frames *)

Lemma check_buy_signal_never_raises_witness :
  ∃ b r a s, check_buy_signal (Some fresh_cross) = Return (b, r, a, s) ∧ is_Some r.
Proof.
  destruct (check_buy_signal_never_raises (Some fresh_cross))
    as (b & r & a & s & H & _ & Hiff).
  exists b, r, a, s. split; [exact H|]. apply Hiff.
  exists fresh_cross. split; [reflexivity|]. split; [reflexivity|].
  vm_compute. discriminate.
Defined.

Lemma check_buy_signal_values_witness :
  is_nan (q 25) = false ∧ fltb (q 25) (of_int 30) = true ∧ fgtb (q 13) (q 12) = true.
Proof.
  destruct (check_buy_signal_values fresh_cross true (q 25) (q 13) (q 12))
    as (_ & _ & _ & Hn & _ & _ & Hs); [reflexivity|].
  split; [exact Hn|]. now apply Hs.
Defined.

Lemma cleaned_frame_defined_witness :
  len (dropna (with_indicators example_rsi example_rolling_mean sixty_bars))
    ≤ len sixty_bars.
Proof.
  eapply (cleaned_frame_defined example_rsi example_rolling_mean sixty_bars).
  reflexivity.
Defined.

Lemma calculate_indicators_effect_witness :
  ∃ df', calculate_indicators example_rsi example_rolling_mean (Some 1%positive)
           one_frame_heap
         = (Return (Some 1%positive), <[1%positive := df']> one_frame_heap)
         ∧ len df' = len sixty_bars.
Proof.
  destruct (calculate_indicators_effect example_rsi example_rolling_mean 1%positive
              sixty_bars one_frame_heap eq_refl) as [_ H].
  destruct (H eq_refl) as (df' & Hout & Hlen & _).
  exists df'. split; [exact Hout | exact Hlen].
Defined.

Lemma run_backtest_missing_close_witness :
  fst (run_backtest example_rsi example_rolling_mean plain_mean (Some 1%positive) "ACME"
         {[ 1%positive := no_close_bars ]}) = Raise AttributeError.
Proof.
  apply (run_backtest_missing_close example_rsi example_rolling_mean plain_mean 1%positive
           no_close_bars "ACME" {[ 1%positive := no_close_bars ]});
    reflexivity.
Defined.

Lemma signals_not_consecutive_witness :
  signal_conditions twelve_bars 3 = Return false.
Proof.
  apply (signals_not_consecutive twelve_bars 2).
  - reflexivity.
  - vm_compute. discriminate.
  - reflexivity.
  - reflexivity.
Defined.

Lemma trade_count_bound_witness :
  ∃ trades, find_trades twelve_bars "ACME" = Return trades
            ∧ 2 * Z.of_nat (length trades) ≤ 6.
Proof.
  apply (trade_count_bound twelve_bars "ACME").
  - reflexivity.
  - reflexivity.
  - vm_compute. discriminate.
Defined.

Lemma seven_bars_no_trades_witness :
  detect_spec seven_bars_with_cross 2 = true
  ∧ find_trades seven_bars_with_cross "ACME" = Return [].
Proof.
  split; [reflexivity|].
  apply (seven_bars_no_trades plain_mean seven_bars_with_cross "ACME"). reflexivity.
Defined.

Lemma find_trades_missing_open_witness :
  find_trades no_open_bars "ACME" = Raise (KeyError "Open").
Proof.
  apply (find_trades_missing_open no_open_bars "ACME").
  - reflexivity.
  - reflexivity.
  - vm_compute. discriminate.
Defined.

Lemma summary_counts_its_log_witness :
  total_trades (analyze_results plain_mean three_trades) = 3.
Proof.
  destruct (summary_counts_its_log plain_mean three_trades) as (Hlog & Htotal & _).
  rewrite Htotal, Hlog. reflexivity.
Defined.

Lemma fetch_stock_data_result_witness :
  fetch_stock_data market "INFY.NS" "6mo" ∅ = (Return None, ∅).
Proof.
  exact (proj2 (fetch_stock_data_result market "INFY.NS" "6mo" ∅)).
Defined.

Lemma backtest_mode_summary_witness :
  ∃ combined overall,
    fst (backtest_mode scripted_rsi scripted_rolling_mean plain_mean market
           ["RELIANCE.NS"; "INFY.NS"] ∅) = Return (Some (combined, overall))
    ∧ length combined = 1%nat
    ∧ overall_win_ratio overall = "100.00%"
    ∧ analyze_results plain_mean combined
      = {| total_trades := overall_total_trades overall;
           win_ratio := PyStr (overall_win_ratio overall);
           avg_return := PyStr (overall_avg_return overall);
           trade_log := combined |}.
Proof.
  do 2 eexists. split; [vm_compute; reflexivity|].
  split; [reflexivity|]. split; [reflexivity|].
  eapply (backtest_mode_summary scripted_rsi scripted_rolling_mean plain_mean market
            ["RELIANCE.NS"; "INFY.NS"] ∅).
  vm_compute. reflexivity.
Defined.

Lemma backtest_loop_skips_witness :
  ∃ h', backtest_loop scripted_rsi scripted_rolling_mean plain_mean market
          ["INFY.NS"; "RELIANCE.NS"] [] ∅
        = backtest_loop scripted_rsi scripted_rolling_mean plain_mean market
            ["RELIANCE.NS"] [] h'.
Proof.
  apply (backtest_loop_skips scripted_rsi scripted_rolling_mean plain_mean market).
  left. eexists. reflexivity.
Defined.

Lemma missing_close_stops_backtest_only_witness :
  fst (backtest_mode scripted_rsi scripted_rolling_mean plain_mean market
         ["TCS.NS"; "RELIANCE.NS"] ∅) = Raise AttributeError.
Proof.
  eapply (missing_close_stops_backtest_only scripted_rsi scripted_rolling_mean
            plain_mean market fixed_clock "TCS.NS" ["RELIANCE.NS"] no_close_bars no_close_bars);
    reflexivity.
Defined.

Lemma live_mode_never_raises_witness :
  ∃ logged h',
    live_mode scripted_rsi scripted_rolling_mean market fixed_clock
      ["TCS.NS"; "INFY.NS"; "RELIANCE.NS"] ∅ = (Return logged, h')
    ∧ is_Some logged.
Proof.
  destruct (live_mode_never_raises scripted_rsi scripted_rolling_mean market
              fixed_clock ["TCS.NS"; "INFY.NS"; "RELIANCE.NS"] ∅)
    as (logged & h' & H & _).
  exists logged, h'. split; [exact H|].
  assert (E : fst (live_mode scripted_rsi scripted_rolling_mean market fixed_clock
                     ["TCS.NS"; "INFY.NS"; "RELIANCE.NS"] ∅) = Return logged)
    by now rewrite H.
  vm_compute in E. injection E as <-. eauto.
Defined.

(** ** Wins and prices *)

Lemma Qcompare_pct_return (b s : Q) :
  (0 < b)%Q → ((s - b) / b * inject_Z 100 ?= inject_Z 0)%Q = (s ?= b)%Q.
Proof.
  intros Hb.
  assert (Hk : (0 < / b * inject_Z 100)%Q).
  { apply Qmult_lt_0_compat; [now apply Qinv_lt_0_compat | reflexivity]. }
  assert (E : ((s - b) / b * inject_Z 100 == (s - b) * (/ b * inject_Z 100))%Q)
    by (unfold Qdiv; ring).
  destruct (s ?= b)%Q eqn:C.
  - apply Qeq_alt in C. apply Qeq_alt. rewrite E, C.
    change (inject_Z 0) with 0%Q. ring.
  - apply Qlt_alt in C. apply Qlt_alt. rewrite E.
    change (inject_Z 0) with 0%Q.
    apply Qlt_le_trans with (0 * (/ b * inject_Z 100))%Q;
      [|rewrite Qmult_0_l; apply Qle_refl].
    apply Qmult_lt_compat_r; [exact Hk | lra].
  - apply Qgt_alt in C. apply Qgt_alt. rewrite E.
    change (inject_Z 0) with 0%Q.
    apply Qmult_lt_0_compat; [lra | exact Hk].
Qed.

(** X3. For a trade the scan returns whose buying price is finite and
    positive and whose selling price is finite, the status is Win exactly
    when it sold above the buying price, and Loss exactly when it sold at
    or below it. *)
Theorem win_iff_sold_higher (data : DataFrame) (ticker : string)
    (trades : list Trade) (t : Trade) (b s : Q) :
  find_trades data ticker = Return trades → t ∈ trades →
  buy_price t = Fin b → sell_price t = Fin s → (0 < b)%Q →
  (status t = "Win" ↔ (b < s)%Q) ∧ (status t = "Loss" ↔ (s <= b)%Q).
Proof.
  intros Hs Ht Hb Hsell Hpos.
  assert (Hp : priced t).
  { eapply (proj1 (Forall_forall _ _)); [|exact Ht].
    eapply scan_priced; [|exact Hs]. constructor. }
  destruct Hp as [Hr Hst]. rewrite Hst, Hr, Hb, Hsell.
  unfold pct_return, fsub, fdiv, of_int.
  rewrite (proj1 (Qgt_alt _ _) Hpos). cbn [fmul]. unfold fgtb. cbn [fcompare].
  rewrite (Qcompare_pct_return b s Hpos).
  destruct (s ?= b)%Q eqn:C.
  - apply Qeq_alt in C. split; split; try done.
    + intros H. rewrite C in H. now apply Qlt_irrefl in H.
    + intros _. rewrite C. apply Qle_refl.
  - apply Qlt_alt in C. split; split; try done.
    + intros H. exfalso. apply (Qlt_irrefl b). now apply Qlt_trans with s.
    + intros _. now apply Qlt_le_weak.
  - apply Qgt_alt in C. split; split; try done.
    intros H. exfalso. apply (Qlt_irrefl b). now apply Qlt_le_trans with s.
Qed.

Lemma win_iff_sold_higher_witness :
  ∃ t, find_trades (ten_bars 100 110) "ACME" = Return [t] ∧ status t = "Win".
Proof.
  eexists. split; [vm_compute; reflexivity|].
  eapply (win_iff_sold_higher (ten_bars 100 110) "ACME" _ _ (inject_Z 100) (inject_Z 110)).
  - vm_compute. reflexivity.
  - left.
  - reflexivity.
  - reflexivity.
  - reflexivity.
  - reflexivity.
Defined.
